(** * Helm release manager (pkg/helm/release/manager.go)

    A shallow embedding of the release manager: [Sync], [InstallRelease],
    [UpdateRelease], [ReconcileRelease], [reconcileRelease], [generatePatch]
    and [UninstallRelease], together with the properties the specification
    states about them.

    Conventions of the embedding.
    - A Go pointer or interface value that may be nil is an [option]; a nil
      dereference is the outcome [Panicked].
    - The collaborators (Helm's release store, Helm's actions, the cluster
      API) are records of functions over an abstract world [W]; every call
      to one of them is appended to a log, so that "a call is issued" is a
      statement about the log.
    - [context.Context] is only handed through to the collaborators and is
      left out. *)

From Stdlib Require Import String Ascii List ZArith Bool Lia.
From Stdlib Require Import Strings.Byte.
Import ListNotations.
Open Scope string_scope.

(** ** Package strings *)

(** [strings.Contains s substr]: [substr] occurs in [s] (the empty string
    occurs everywhere). *)
Fixpoint strings_Contains (s substr : string) : bool :=
  if String.prefix substr s then true
  else match s with
       | EmptyString => false
       | String _ s' => strings_Contains s' substr
       end.

(** ** Errors *)

(** Go [error] values, as far as the manager can tell them apart: by their
    message ([Error]), and by the chain that [errors.Is] follows.
    - [ErrReleaseNotFound] is the package-level value
      [driver.ErrReleaseNotFound], compared by identity;
    - [errorString] is any error without a wrapped cause ([errors.New],
      [fmt.Errorf] without the verb w, an error of a collaborator);
    - [wrapError] is what [fmt.Errorf] builds for the verb w. *)
Inductive error : Type :=
| ErrReleaseNotFound
| errorString (msg : string)
| wrapError (msg : string) (err : error).

Definition Error (e : error) : string :=
  match e with
  | ErrReleaseNotFound => "release: not found"
  | errorString msg => msg
  | wrapError msg _ => msg
  end.

(** [fmt.Errorf(prefix + "%w", err)] *)
Definition fmt_Errorf_w (prefix : string) (err : error) : error :=
  wrapError (prefix ++ Error err) err.

(** [errors.Is(err, driver.ErrReleaseNotFound)] *)
Fixpoint Is_ErrReleaseNotFound (e : error) : bool :=
  match e with
  | ErrReleaseNotFound => true
  | errorString _ => false
  | wrapError _ cause => Is_ErrReleaseNotFound cause
  end.

Definition errors_Is_ErrReleaseNotFound (err : option error) : bool :=
  match err with
  | Some e => Is_ErrReleaseNotFound e
  | None => false
  end.

(** [func notFoundErr(err error) bool] *)
Definition notFoundErr (err : option error) : bool :=
  match err with
  | Some e => strings_Contains (Error e) "not found"
  | None => false
  end.

(** ** Helm's release records (package rpb) *)

Module rpb.

(** [StatusDeployed Status = "deployed"]; [Status] is a string type. *)
Definition StatusDeployed : string := "deployed".

Record Info : Type := mkInfo { Status : string }.

Record Release : Type := mkRelease {
  Name : string;
  Info_ : option Info;      (* Info *Info *)
  Manifest : string;
  Version : Z;
  Namespace : string
}.

End rpb.

Module response.

Record UninstallReleaseResponse : Type := mkResponse {
  Release : option rpb.Release;
  Info : string
}.

End response.

(** ** Package jsonpatch *)

Module jsonpatch.

Record JsonPatchOperation (JValue : Type) : Type := mkOp {
  Operation : string;
  Path : string;
  Value : JValue
}.
Arguments mkOp {JValue}.
Arguments Operation {JValue}.
Arguments Path {JValue}.
Arguments Value {JValue}.

End jsonpatch.

(** ** Outcomes of a run *)

Inductive outcome (A : Type) : Type :=
| Returned (a : A)
| Panicked.
Arguments Returned {A}.
Arguments Panicked {A}.

(** The calls the manager issues to its collaborators. *)
Inductive Call (Object : Type) : Type :=
| CallHistory (name : string)
| CallDelete (name : string) (version : Z)
| CallDeployed (name : string)
| CallInstall (releaseName namespace : string)
| CallUpgrade (namespace : string) (dryRun : bool) (name : string)
| CallRollback (force : bool) (name : string)
| CallUninstall (name : string)
| CallBuild (manifest : string) (validate : bool)
| CallGet (namespace name : string)
| CallCreate (namespace : string) (obj : Object)
| CallPatch (namespace name : string) (patch : list byte).
Arguments CallHistory {Object}.
Arguments CallDelete {Object}.
Arguments CallDeployed {Object}.
Arguments CallInstall {Object}.
Arguments CallUpgrade {Object}.
Arguments CallRollback {Object}.
Arguments CallUninstall {Object}.
Arguments CallBuild {Object}.
Arguments CallGet {Object}.
Arguments CallCreate {Object}.
Arguments CallPatch {Object}.

Definition isCreate {Object : Type} (c : Call Object) : bool :=
  match c with CallCreate _ _ => true | _ => false end.

Definition isPatch {Object : Type} (c : Call Object) : bool :=
  match c with CallPatch _ _ _ => true | _ => false end.

Definition isUpgrade {Object : Type} (c : Call Object) : bool :=
  match c with CallUpgrade _ _ _ => true | _ => false end.

Definition isDelete {Object : Type} (c : Call Object) : bool :=
  match c with CallDelete _ _ => true | _ => false end.

(** The state a run threads: the collaborators' world and the log. *)
Record St (W Object : Type) : Type := mkSt {
  world : W;
  calls : list (Call Object)
}.
Arguments mkSt {W Object}.
Arguments world {W Object}.
Arguments calls {W Object}.

Definition M (W Object A : Type) : Type :=
  St W Object -> outcome A * St W Object.

Definition ret {W Object A : Type} (a : A) : M W Object A :=
  fun s => (Returned a, s).

Definition panic {W Object A : Type} : M W Object A :=
  fun s => (Panicked, s).

Definition bind {W Object A B : Type}
    (c : M W Object A) (k : A -> M W Object B) : M W Object B :=
  fun s => match c s with
           | (Returned a, s') => k a s'
           | (Panicked, s') => (Panicked, s')
           end.

(** A call to a collaborator: log it, then let the collaborator answer. *)
Definition call {W Object R : Type}
    (c : Call Object) (f : W -> R * W) : M W Object R :=
  fun s => let (r, w') := f (world s) in
           (Returned r, mkSt w' (calls s ++ [c])).

(** Reading a field through a pointer. *)
Definition deref {W Object A : Type} (p : option A) : M W Object A :=
  match p with
  | Some a => ret a
  | None => panic
  end.

(** A run only adds to the log. *)
Definition grows {W Object A : Type} (c : M W Object A) : Prop :=
  forall s, exists l, calls (snd (c s)) = (calls s ++ l)%list.

Declare Scope go_scope.
Delimit Scope go_scope with go.
Notation "x <- c ;; k" := (bind c (fun x => k))
  (at level 61, c at next level, right associativity) : go_scope.
Notation "' pat <- c ;; k" := (bind c (fun x => match x with pat => k end))
  (at level 61, pat pattern, c at next level, right associativity) : go_scope.
Open Scope go_scope.

(** ** The collaborators

    The manager reaches Helm and the cluster only through these
    interfaces.  None of them is implemented in this package. *)

Section Collaborators.

Context {W Object Chart Values JValue : Type}.

(** [storage.Storage]: the release store. *)
Record Storage : Type := mkStorage {
  History : string -> W -> (list (option rpb.Release) * option error) * W;
  Deployed : string -> W -> (option rpb.Release * option error) * W;
  Delete : string -> Z -> W -> (option rpb.Release * option error) * W
}.

(** [action.Configuration], through the four actions the manager runs on
    it.  The fields an action is configured with come first, then the
    arguments of its [Run]. *)
Record Configuration : Type := mkConfiguration {
  InstallRun : string -> string -> Chart -> Values ->
               W -> (option rpb.Release * option error) * W;
  UpgradeRun : string -> bool -> string -> Chart -> Values ->
               W -> (option rpb.Release * option error) * W;
  RollbackRun : bool -> string -> W -> option error * W;
  UninstallRun : string ->
                 W -> (option response.UninstallReleaseResponse * option error) * W
}.

(** [resource.Helper], as built from the client and mapping of a
    [resource.Info]. *)
Record Helper : Type := mkHelper {
  Get : string -> string -> bool -> W -> (Object * option error) * W;
  Create : string -> bool -> Object -> W -> (Object * option error) * W;
  Patch : string -> string -> string -> list byte ->
          W -> (Object * option error) * W
}.

(** [resource.Info]: one object of a rendered manifest.  [Client] stands
    for the client and the mapping the helper is built from. *)
Record ResourceInfo : Type := mkResourceInfo {
  RNamespace : string;
  RName : string;
  RObject : Object;
  Client : Helper
}.

(** [kube.Interface] *)
Record KubeInterface : Type := mkKubeInterface {
  Build : string -> bool ->
          W -> (list (option ResourceInfo) * option error) * W
}.

(** The JSON functions [generatePatch] calls: [json.Marshal] on an
    object, [jsonpatch.CreatePatch], and [json.Marshal] on a list of
    operations.  [json.Marshal] yields either bytes or an error. *)
Record JSON : Type := mkJSON {
  json_Marshal : Object -> list byte + error;
  jsonpatch_CreatePatch :
    list byte -> list byte ->
    list (jsonpatch.JsonPatchOperation JValue) * option error;
  json_Marshal_ops :
    list (jsonpatch.JsonPatchOperation JValue) -> list byte + error
}.

(** [type manager struct].  The field [status] is not used by any method
    of this file and is left out. *)
Record manager : Type := mkManager {
  actionConfig : Configuration;
  storageBackend : Storage;
  kubeClient : KubeInterface;
  releaseName : string;
  namespace : string;
  values : Values;
  isInstalled : bool;
  isUpdateRequired : bool;
  deployedRelease : option rpb.Release;
  chart : Chart
}.

Definition set_deployedRelease (m : manager) (r : option rpb.Release) : manager :=
  mkManager (actionConfig m) (storageBackend m) (kubeClient m)
            (releaseName m) (namespace m) (values m)
            (isInstalled m) (isUpdateRequired m) r (chart m).

Definition set_isInstalled (m : manager) (b : bool) : manager :=
  mkManager (actionConfig m) (storageBackend m) (kubeClient m)
            (releaseName m) (namespace m) (values m)
            b (isUpdateRequired m) (deployedRelease m) (chart m).

Definition set_isUpdateRequired (m : manager) (b : bool) : manager :=
  mkManager (actionConfig m) (storageBackend m) (kubeClient m)
            (releaseName m) (namespace m) (values m)
            (isInstalled m) b (deployedRelease m) (chart m).

(** [func (m manager) ReleaseName() string] *)
Definition ReleaseName (m : manager) : string := releaseName m.

(** [func (m manager) IsInstalled() bool] *)
Definition IsInstalled (m : manager) : bool := isInstalled m.

(** [func (m manager) IsUpdateRequired() bool] *)
Definition IsUpdateRequired (m : manager) : bool := isUpdateRequired m.

Local Abbreviation Run := (M W Object).

(** *** Sync *)

(** The revision is one the loop of [Sync] deletes:
    [rel.Info != nil && rel.Info.Status != rpb.StatusDeployed]. *)
Definition stale (rel : rpb.Release) : bool :=
  match rpb.Info_ rel with
  | Some info => negb (String.eqb (rpb.Status info) rpb.StatusDeployed)
  | None => false
  end.

(** The guard [err != nil && !notFoundErr(err)]: the error it lets
    through, if any. *)
Definition notNilAndNotNotFound (err : option error) : option error :=
  match err with
  | Some e => if negb (notFoundErr err) then Some e else None
  | None => None
  end.

(** The loop of [Sync] over the history.  [Some e] is the error [Sync]
    returns from inside the loop, [None] means the loop ran to its end. *)
Fixpoint cleanup (st : Storage) (releases : list (option rpb.Release))
    : Run (option error) :=
  match releases with
  | [] => ret None
  | p :: rest =>
      rel <- deref p ;;
      if stale rel then
        ' (_, err) <- call (CallDelete (rpb.Name rel) (rpb.Version rel))
                           (Delete st (rpb.Name rel) (rpb.Version rel)) ;;
        match notNilAndNotNotFound err with
        | Some e =>
            ret (Some (fmt_Errorf_w "failed to delete stale release version: " e))
        | None => cleanup st rest
        end
      else cleanup st rest
  end.

(** [func (m manager) getDeployedRelease()], returning a release pointer and an error *)
Definition getDeployedRelease (m : manager)
    : Run (option rpb.Release * option error) :=
  ' (deployedRelease, err) <- call (CallDeployed (releaseName m))
                                   (Deployed (storageBackend m) (releaseName m)) ;;
  match err with
  | Some e =>
      if strings_Contains (Error e) "has no deployed releases" then
        ret (None, Some ErrReleaseNotFound)
      else ret (None, Some e)
  | None => ret (deployedRelease, None)
  end.

(** [func (m manager) getCandidateRelease(namespace, name, chart, values)] *)
Definition getCandidateRelease (m : manager) (namespace name : string)
    (chart : Chart) (values : Values)
    : Run (option rpb.Release * option error) :=
  call (CallUpgrade namespace true name)
       (UpgradeRun (actionConfig m) namespace true name chart values).

(** [Sync], lines 106 to 126: load the deployed release and compare it
    with the candidate.  The receiver of [Sync] is a pointer: the manager
    after the call is returned with the error. *)
Definition Sync_deployed (m : manager) : Run (manager * option error) :=
  ' (deployedRelease, err) <- getDeployedRelease m ;;
  if errors_Is_ErrReleaseNotFound err then ret (m, None)
  else
  match err with
  | Some e =>
      ret (m, Some (fmt_Errorf_w "failed to get deployed release: " e))
  | None =>
  let m := set_isInstalled (set_deployedRelease m deployedRelease) true in
  ' (candidateRelease, err) <-
      getCandidateRelease m (namespace m) (releaseName m) (chart m) (values m) ;;
  match err with
  | Some e =>
      ret (m, Some (fmt_Errorf_w "failed to get candidate release: " e))
  | None =>
  d <- deref deployedRelease ;;
  c <- deref candidateRelease ;;
  if negb (String.eqb (rpb.Manifest d) (rpb.Manifest c)) then
    ret (set_isUpdateRequired m true, None)
  else ret (m, None)
  end end.

(** [Sync], lines 94 to 126: the loop over the history, then the rest. *)
Definition Sync_cleanup (m : manager) (releases : list (option rpb.Release))
    : Run (manager * option error) :=
  r <- cleanup (storageBackend m) releases ;;
  match r with
  | Some e => ret (m, Some e)
  | None => Sync_deployed m
  end.

(** [func (m *manager) Sync(ctx context.Context) error] *)
Definition Sync (m : manager) : Run (manager * option error) :=
  ' (releases, err) <- call (CallHistory (releaseName m))
                            (History (storageBackend m) (releaseName m)) ;;
  match notNilAndNotNotFound err with
  | Some e =>
      ret (m, Some (fmt_Errorf_w "failed to retrieve release history: " e))
  | None => Sync_cleanup m releases
  end.

(** *** InstallRelease *)

(** [func (m manager) InstallRelease(ctx)], returning a release pointer and an error *)
Definition InstallRelease (m : manager)
    : Run (option rpb.Release * option error) :=
  ' (installedRelease, err) <-
      call (CallInstall (releaseName m) (namespace m))
           (InstallRun (actionConfig m) (releaseName m) (namespace m)
                       (chart m) (values m)) ;;
  match err with
  | Some e =>
      match installedRelease with
      | Some _ =>
          ' (_, uninstallErr) <-
              call (CallUninstall (releaseName m))
                   (UninstallRun (actionConfig m) (releaseName m)) ;;
          match notNilAndNotNotFound uninstallErr with
          | Some ue =>
              ret (None,
                   Some (wrapError ("failed installation (" ++ Error e
                                    ++ ") and failed rollback: " ++ Error ue) ue))
          | None =>
              ret (None, Some (fmt_Errorf_w "failed to install release: " e))
          end
      | None =>
          ret (None, Some (fmt_Errorf_w "failed to install release: " e))
      end
  | None => ret (installedRelease, None)
  end.

(** *** UpdateRelease *)

(** [func (m manager) UpdateRelease(ctx)], returning the deployed release, the updated release and an error *)
Definition UpdateRelease (m : manager)
    : Run (option rpb.Release * option rpb.Release * option error) :=
  ' (updatedRelease, err) <-
      call (CallUpgrade (namespace m) false (releaseName m))
           (UpgradeRun (actionConfig m) (namespace m) false (releaseName m)
                       (chart m) (values m)) ;;
  match err with
  | Some e =>
      match updatedRelease with
      | Some _ =>
          rollbackErr <- call (CallRollback true (releaseName m))
                              (RollbackRun (actionConfig m) true (releaseName m)) ;;
          match rollbackErr with
          | Some re =>
              ret (None, None,
                   Some (wrapError ("failed update (" ++ Error e
                                    ++ ") and failed rollback: " ++ Error re) re))
          | None =>
              ret (None, None, Some (fmt_Errorf_w "failed to update release: " e))
          end
      | None =>
          ret (None, None, Some (fmt_Errorf_w "failed to update release: " e))
      end
  | None => ret (deployedRelease m, updatedRelease, err)
  end.

(** *** UninstallRelease *)

(** [func (m manager) UninstallRelease(ctx)], returning a release pointer and an error.  The
    last line reads [uninstallResponse.Release] whatever [err] is. *)
Definition UninstallRelease (m : manager)
    : Run (option rpb.Release * option error) :=
  ' (h, err) <- call (CallHistory (releaseName m))
                     (History (storageBackend m) (releaseName m)) ;;
  match err with
  | Some e =>
      ret (None, Some (fmt_Errorf_w "failed to get release history: " e))
  | None =>
      if (length h =? 0)%nat then ret (None, Some ErrReleaseNotFound)
      else
        ' (uninstallResponse, err) <-
            call (CallUninstall (releaseName m))
                 (UninstallRun (actionConfig m) (releaseName m)) ;;
        resp <- deref uninstallResponse ;;
        ret (response.Release resp, err)
  end.

(** *** generatePatch *)

(** The packages [json], [jsonpatch] and [apierrors] are libraries the
    manager imports; the functions it uses from them are taken as given. *)
Variable js : JSON.

(** [apierrors.IsNotFound] on an error that is not nil. *)
Variable reasonNotFound : error -> bool.

(** [apierrors.IsNotFound(err)]; a nil error is never "not found". *)
Definition apierrors_IsNotFound (err : option error) : bool :=
  match err with
  | Some e => reasonNotFound e
  | None => false
  end.

(** The loop of [generatePatch]: the operations other than "remove", in
    the order of [ops]. *)
Fixpoint patchOps (ops : list (jsonpatch.JsonPatchOperation JValue))
    : list (jsonpatch.JsonPatchOperation JValue) :=
  match ops with
  | [] => []
  | op :: rest =>
      if negb (String.eqb (jsonpatch.Operation op) "remove")
      then op :: patchOps rest
      else patchOps rest
  end.

(** [func generatePatch(existing, expected runtime.Object) ([]byte, error)].
    The patch is [None] for the nil slice. *)
Definition generatePatch (existing expected : Object)
    : option (list byte) * option error :=
  match json_Marshal js existing with
  | inr err => (None, Some err)
  | inl existingJSON =>
  match json_Marshal js expected with
  | inr err => (None, Some err)
  | inl expectedJSON =>
  match jsonpatch_CreatePatch js existingJSON expectedJSON with
  | (_, Some err) => (None, Some err)
  | (ops, None) =>
      let patchOps := patchOps ops in
      if (length patchOps =? 0)%nat then (None, None)
      else match json_Marshal_ops js patchOps with
           | inl b => (Some b, None)
           | inr err => (None, Some err)
           end
  end end end.

(** *** reconcileRelease *)

(** [types.JSONPatchType] *)
Definition JSONPatchType : string := "application/json-patch+json".

(** The function [reconcileRelease] hands to [Visit]. *)
Definition visitor (expected : option ResourceInfo) (err : option error)
    : Run (option error) :=
  match err with
  | Some e => ret (Some e)
  | None =>
      expected <- deref expected ;;
      let helper := Client expected in
      ' (existing, err) <-
          call (CallGet (RNamespace expected) (RName expected))
               (Get helper (RNamespace expected) (RName expected) false) ;;
      if apierrors_IsNotFound err then
        ' (_, err) <-
            call (CallCreate (RNamespace expected) (RObject expected))
                 (Create helper (RNamespace expected) true (RObject expected)) ;;
        match err with
        | Some e => ret (Some (errorString ("create error: " ++ Error e)))
        | None => ret None
        end
      else
        match err with
        | Some e => ret (Some e)
        | None =>
            match generatePatch existing (RObject expected) with
            | (_, Some e) =>
                ret (Some (fmt_Errorf_w "failed to marshal JSON patch: " e))
            | (None, None) => ret None
            | (Some patch, None) =>
                ' (_, err) <-
                    call (CallPatch (RNamespace expected) (RName expected) patch)
                         (Patch helper (RNamespace expected) (RName expected)
                                JSONPatchType patch) ;;
                match err with
                | Some e => ret (Some (fmt_Errorf_w "patch error: " e))
                | None => ret None
                end
            end
        end
  end.

(** [kube.ResourceList.Visit]: the function is applied to each info in
    order, with a nil error, and the first error it returns ends the
    walk. *)
Fixpoint Visit (infos : list (option ResourceInfo))
    (fn : option ResourceInfo -> option error -> Run (option error))
    : Run (option error) :=
  match infos with
  | [] => ret None
  | i :: rest =>
      r <- fn i None ;;
      match r with
      | Some e => ret (Some e)
      | None => Visit rest fn
      end
  end.

(** [func reconcileRelease(ctx, kubeClient, expectedManifest) error] *)
Definition reconcileRelease (kubeClient : KubeInterface)
    (expectedManifest : string) : Run (option error) :=
  ' (expectedInfos, err) <- call (CallBuild expectedManifest false)
                                 (Build kubeClient expectedManifest false) ;;
  match err with
  | Some e => ret (Some e)
  | None => Visit expectedInfos visitor
  end.

(** [func (m manager) ReconcileRelease(ctx)], returning the deployed
    release and an error. *)
Definition ReconcileRelease (m : manager)
    : Run (option rpb.Release * option error) :=
  d <- deref (deployedRelease m) ;;
  err <- reconcileRelease (kubeClient m) (rpb.Manifest d) ;;
  ret (deployedRelease m, err).

(** *** A converged cluster *)

(** The diff of the live object against the expected one holds "remove"
    operations only: the live object is the expected one, possibly with
    fields the expected one does not have. *)
Definition onlyRemovals (existing expected : Object) : Prop :=
  exists a b ops,
    json_Marshal js existing = inl a /\
    json_Marshal js expected = inl b /\
    jsonpatch_CreatePatch js a b = (ops, None) /\
    Forall (fun op => jsonpatch.Operation op = "remove") ops.

(** [Converged infos w w']: fetched one after the other from the world
    [w], every object of [infos] is found live, with a diff of removals
    only; the fetches leave the world [w']. *)
Inductive Converged : list ResourceInfo -> W -> W -> Prop :=
| Converged_nil (w : W) : Converged [] w w
| Converged_cons (i : ResourceInfo) (rest : list ResourceInfo)
    (w w1 w2 : W) (existing : Object) :
    Get (Client i) (RNamespace i) (RName i) false w = ((existing, None), w1) ->
    onlyRemovals existing (RObject i) ->
    Converged rest w1 w2 ->
    Converged (i :: rest) w w2.

End Collaborators.


(** ** A fake Helm and a fake cluster

    An in-memory stand-in for the collaborators, on which the manager can
    be run: a list of revisions for the release store, canned answers for
    the actions, and a list of live objects for the cluster.  Objects are
    strings, and the fake diff treats every byte of an object as one of
    its fields. *)

Record Fake : Type := mkFake {
  revisions : list rpb.Release;
  historyErr : option error;
  deleteErr : option error;
  rendered : string;
  installAnswer : option rpb.Release * option error;
  upgradeAnswer : option rpb.Release * option error;
  rollbackAnswer : option error;
  uninstallAnswer : option response.UninstallReleaseResponse * option error;
  live : list (string * string * string)
}.

Definition set_revisions (w : Fake) (rs : list rpb.Release) : Fake :=
  mkFake rs (historyErr w) (deleteErr w) (rendered w) (installAnswer w)
         (upgradeAnswer w) (rollbackAnswer w) (uninstallAnswer w) (live w).

Definition isDeployed (r : rpb.Release) : bool :=
  match rpb.Info_ r with
  | Some info => String.eqb (rpb.Status info) rpb.StatusDeployed
  | None => false
  end.

Definition isRevision (name : string) (version : Z) (r : rpb.Release) : bool :=
  String.eqb (rpb.Name r) name && Z.eqb (rpb.Version r) version.

Definition fakeStorage : @Storage Fake :=
  mkStorage
    (fun name w =>
       ((map Some (filter (fun r => String.eqb (rpb.Name r) name) (revisions w)),
         historyErr w), w))
    (fun name w =>
       match find (fun r => String.eqb (rpb.Name r) name && isDeployed r)
                  (revisions w) with
       | Some r => ((Some r, None), w)
       | None => ((None, Some (errorString (name ++ " has no deployed releases"))), w)
       end)
    (fun name version w =>
       match deleteErr w with
       | Some e => ((None, Some e), w)
       | None =>
           match find (isRevision name version) (revisions w) with
           | Some r =>
               ((Some r, None),
                set_revisions w (filter (fun r => negb (isRevision name version r))
                                        (revisions w)))
           | None => ((None, Some ErrReleaseNotFound), w)
           end
       end).

Definition fakeConfiguration : @Configuration Fake unit unit :=
  mkConfiguration
    (fun _ _ _ _ w => (installAnswer w, w))
    (fun ns dryRun name _ _ w =>
       if dryRun
       then ((Some (rpb.mkRelease name None (rendered w) 0 ns), None), w)
       else (upgradeAnswer w, w))
    (fun _ _ w => (rollbackAnswer w, w))
    (fun _ w => (uninstallAnswer w, w)).

Definition isLive (ns name : string) (o : string * string * string) : bool :=
  String.eqb (fst (fst o)) ns && String.eqb (snd (fst o)) name.

Definition fakeHelper : @Helper Fake string :=
  mkHelper
    (fun ns name _ w =>
       match find (isLive ns name) (live w) with
       | Some o => ((snd o, None), w)
       | None => ((EmptyString, Some (errorString "NotFound")), w)
       end)
    (fun _ _ obj w => ((obj, None), w))
    (fun _ _ _ _ w => ((EmptyString, None), w)).

Definition fakeReasonNotFound (e : error) : bool :=
  String.eqb (Error e) "NotFound".

(** The fake [Build]: the manifest is one object named "object" in the
    namespace "default". *)
Definition fakeKube : @KubeInterface Fake string :=
  mkKubeInterface
    (fun manifest _ w =>
       (([Some (mkResourceInfo "default" "object" manifest fakeHelper)], None), w)).

Definition hasByte (x : byte) (l : list byte) : bool :=
  existsb (Byte.eqb x) l.

Definition fakePath (x : byte) : string :=
  "/" ++ string_of_list_byte [x].

Definition fakeJSON : @JSON string string :=
  mkJSON
    (fun o => inl (list_byte_of_string o))
    (fun a b =>
       ((map (fun x => jsonpatch.mkOp "remove" (fakePath x) EmptyString)
             (filter (fun x => negb (hasByte x b)) a)
         ++ map (fun x => jsonpatch.mkOp "add" (fakePath x) (string_of_list_byte [x]))
                (filter (fun x => negb (hasByte x a)) b))%list,
        None))
    (fun ops =>
       inl (list_byte_of_string
              (String.concat ";" (map (fun op => jsonpatch.Operation op
                                                 ++ jsonpatch.Path op) ops)))).

Definition fakeWorld : Fake :=
  mkFake [] None None EmptyString (None, None) (None, None) None (None, None) [].

(** A manager as its constructor leaves it: nothing installed, no update
    required, no deployed release. *)
Definition fakeManager : @manager Fake string unit unit :=
  mkManager fakeConfiguration fakeStorage fakeKube
            "demo" "default" tt false false None tt.

Definition start (w : Fake) : St Fake string := mkSt w [].

Definition revision (version : Z) (status manifest : string) : rpb.Release :=
  rpb.mkRelease "demo" (Some (rpb.mkInfo status)) manifest version "default".

(** The store holds revisions [rs] and the chart renders to [manifest]. *)
Definition fakeStore (rs : list rpb.Release) (manifest : string) : Fake :=
  mkFake rs None None manifest (None, None) (None, None) None (None, None) [].

(** [fakeManager] after a pass that found revision 1 deployed. *)
Definition installedManager : @manager Fake string unit unit :=
  set_isInstalled
    (set_deployedRelease fakeManager (Some (revision 1 "deployed" "M1"))) true.

(** [installedManager] after a pass that found an update to be required. *)
Definition updatedManager : @manager Fake string unit unit :=
  set_isUpdateRequired installedManager true.

(** Revision 1 is deployed and the chart still renders to its manifest. *)
Definition storeDeployed : Fake :=
  fakeStore [revision 1 "deployed" "M1"] "M1".

(** Revision 1 is deployed and the chart now renders to something else. *)
Definition storeChanged : Fake :=
  fakeStore [revision 1 "deployed" "M1"] "M2".

(** The only revision is a failed one. *)
Definition storeFailed : Fake :=
  fakeStore [revision 2 "failed" "M1"] "M1".

(** A deployed revision followed by two that are not. *)
Definition storeMixed : Fake :=
  fakeStore [revision 1 "deployed" "M1"; revision 2 "failed" "M2";
             revision 3 "pending-install" "M3"] "M1".

(** Install and upgrade fail and return a release all the same; the
    rollback answers [rerr], the uninstall answers [uerr] and no response. *)
Definition partialFailure (rerr uerr : option error) : Fake :=
  mkFake [] None None EmptyString
         (Some (revision 1 "failed" "M1"), Some (errorString "timed out"))
         (Some (revision 2 "failed" "M2"), Some (errorString "timed out"))
         rerr (None, uerr) [].

(** An error that has nothing to do with a missing release. *)
Definition hostNotFound : error :=
  errorString "dial tcp: lookup kubernetes.default.svc: host not found".

Definition connectionRefused : error :=
  errorString "dial tcp 10.0.0.1:443: connection refused".

(** The store answers every [History] and [Delete] with [hostNotFound]. *)
Definition storeUnreachable : Fake :=
  mkFake [revision 2 "failed" "M1"] (Some hostNotFound) (Some hostNotFound)
         "M1" (None, None) (None, None) None (None, None) [].

(** The uninstall answers [answer]; the store holds one deployed revision. *)
Definition storeUninstalling
    (answer : option response.UninstallReleaseResponse * option error) : Fake :=
  mkFake [revision 1 "deployed" "M1"] None None "M1" (None, None) (None, None)
         None answer [].

Definition uninstalledResponse : response.UninstallReleaseResponse :=
  response.mkResponse (Some (revision 1 "uninstalled" "M1")) EmptyString.

(** The live object is the expected one with one more field. *)
Definition clusterConverged : Fake :=
  mkFake [revision 1 "deployed" "M1"] None None "M1" (None, None) (None, None)
         None (None, None) [("default", "object", "M1+")].


(** One failed revision in a store whose [Delete] cannot resolve its host:
    a failure that has nothing to do with a missing revision, with a
    message that contains "not found". *)
Definition storeDeleteUnresolved : Fake :=
  mkFake [revision 2 "failed" "M1"] None (Some hostNotFound) "M1"
         (None, None) (None, None) None (None, None) [].

(** One failed revision in a store whose [Delete] is refused. *)
Definition storeDeleteRefused : Fake :=
  mkFake [revision 2 "failed" "M1"] None (Some connectionRefused) "M1"
         (None, None) (None, None) None (None, None) [].

(** ** Vocabulary for the properties of whole runs *)

(** Every call a run adds to the log satisfies [P]. *)
Definition issues {W Object A : Type} (P : Call Object -> bool)
    (c : M W Object A) : Prop :=
  forall s, exists l,
    calls (snd (c s)) = (calls s ++ l)%list /\ Forall (fun c => P c = true) l.

(** The calls of [Sync] for the release [name] in [namespace]: reads of the
    store for that release, deletions, and dry runs of the upgrade. *)
Definition isSyncCall {Object : Type} (name namespace : string)
    (c : Call Object) : bool :=
  match c with
  | CallHistory n => String.eqb n name
  | CallDelete _ _ => true
  | CallDeployed n => String.eqb n name
  | CallUpgrade ns dryRun n =>
      dryRun && String.eqb ns namespace && String.eqb n name
  | _ => false
  end.

(** The calls of [InstallRelease]: the install of the release in the
    namespace, and the uninstall of the release. *)
Definition isInstallReleaseCall {Object : Type} (name namespace : string)
    (c : Call Object) : bool :=
  match c with
  | CallInstall n ns => String.eqb n name && String.eqb ns namespace
  | CallUninstall n => String.eqb n name
  | _ => false
  end.

(** The calls of [UpdateRelease]: the upgrade of the release in the
    namespace, not as a dry run, and the forced rollback of the release. *)
Definition isUpdateReleaseCall {Object : Type} (name namespace : string)
    (c : Call Object) : bool :=
  match c with
  | CallUpgrade ns dryRun n =>
      negb dryRun && String.eqb ns namespace && String.eqb n name
  | CallRollback force n => force && String.eqb n name
  | _ => false
  end.

(** The calls of [UninstallRelease]: the history and the uninstall of the
    release. *)
Definition isUninstallReleaseCall {Object : Type} (name : string)
    (c : Call Object) : bool :=
  match c with
  | CallHistory n | CallUninstall n => String.eqb n name
  | _ => false
  end.

(** The calls to the cluster. *)
Definition isClusterCall {Object : Type} (c : Call Object) : bool :=
  match c with
  | CallBuild _ _ | CallGet _ _ | CallCreate _ _ | CallPatch _ _ _ => true
  | _ => false
  end.

(** The [Delete] calls the loop of [Sync] has to issue for a history, in
    the order of the history, up to the first nil entry. *)
Fixpoint staleDeletes {Object : Type} (releases : list (option rpb.Release))
    : list (Call Object) :=
  match releases with
  | [] => []
  | None :: _ => []
  | Some rel :: rest =>
      if stale rel
      then CallDelete (rpb.Name rel) (rpb.Version rel) :: staleDeletes rest
      else staleDeletes rest
  end.

(** A manager that reports a release as installed holds that release. *)
Definition holdsDeployed {W Object Chart Values : Type}
    (m : @manager W Object Chart Values) : Prop :=
  isInstalled m = true -> deployedRelease m <> None.

(** [m'] is [m] up to the three fields [Sync] assigns, and neither flag
    went from true to false. *)
Definition raisedFrom {W Object Chart Values : Type}
    (m m' : @manager W Object Chart Values) : Prop :=
  actionConfig m' = actionConfig m /\
  storageBackend m' = storageBackend m /\
  kubeClient m' = kubeClient m /\
  releaseName m' = releaseName m /\
  namespace m' = namespace m /\
  values m' = values m /\
  chart m' = chart m /\
  (isInstalled m = true -> isInstalled m' = true) /\
  (isUpdateRequired m = true -> isUpdateRequired m' = true).

(** ** More fakes *)

(** A store that cannot be reached: every operation answers
    [connectionRefused]. *)
Definition downStorage : @Storage Fake :=
  mkStorage
    (fun _ w => (([Some (revision 2 "failed" "M1")], Some connectionRefused), w))
    (fun _ w => ((Some (revision 1 "deployed" "M1"), Some connectionRefused), w))
    (fun _ _ w => ((None, Some connectionRefused), w)).

(** A store with an empty history whose [Deployed] cannot be reached. *)
Definition halfDownStorage : @Storage Fake :=
  mkStorage
    (fun _ w => (([], None), w))
    (fun _ w => ((Some (revision 1 "deployed" "M1"), Some connectionRefused), w))
    (fun _ _ w => ((None, None), w)).

(** Actions whose dry run fails to render. *)
Definition noRenderConfiguration : @Configuration Fake unit unit :=
  mkConfiguration
    (fun _ _ _ _ w => (installAnswer w, w))
    (fun _ _ _ _ _ w => ((None, Some (errorString "render error")), w))
    (fun _ _ w => (rollbackAnswer w, w))
    (fun _ w => (uninstallAnswer w, w)).

(** A cluster that cannot be reached. *)
Definition downHelper : @Helper Fake string :=
  mkHelper
    (fun _ _ _ w => ((EmptyString, Some connectionRefused), w))
    (fun _ _ _ w => ((EmptyString, Some connectionRefused), w))
    (fun _ _ _ _ w => ((EmptyString, Some connectionRefused), w)).

Definition downKube : @KubeInterface Fake string :=
  mkKubeInterface (fun _ _ w => (([], Some connectionRefused), w)).

(** [Build] answers two objects: the first cannot be fetched, the second
    is live. *)
Definition halfDownKube : @KubeInterface Fake string :=
  mkKubeInterface
    (fun manifest _ w =>
       (([Some (mkResourceInfo "default" "first" manifest downHelper);
          Some (mkResourceInfo "default" "object" manifest fakeHelper)], None), w)).

Definition managerWith (ac : @Configuration Fake unit unit)
    (st : @Storage Fake) (kc : @KubeInterface Fake string)
    (deployed : option rpb.Release) : @manager Fake string unit unit :=
  mkManager ac st kc "demo" "default" tt false false deployed tt.

(** Install and upgrade succeed. *)
Definition storeSucceeding : Fake :=
  mkFake [revision 1 "deployed" "M1"] None None "M2"
         (Some (revision 1 "deployed" "M1"), None)
         (Some (revision 2 "deployed" "M2"), None)
         None (None, None) [].

(** Install and upgrade fail and return no release. *)
Definition storeFailing : Fake :=
  mkFake [] None None EmptyString
         (None, Some (errorString "timed out"))
         (None, Some (errorString "timed out"))
         None (None, None) [].

Definition unsupportedValue : error :=
  errorString "json: unsupported value".

(** [fakeJSON], except that the empty object cannot be encoded. *)
Definition strictJSON : @JSON string string :=
  mkJSON
    (fun o => if String.eqb o EmptyString then inr unsupportedValue
              else inl (list_byte_of_string o))
    (jsonpatch_CreatePatch fakeJSON)
    (json_Marshal_ops fakeJSON).

(** The live object is the empty object. *)
Definition clusterUnencodable : Fake :=
  mkFake [revision 1 "deployed" "M1"] None None "M1" (None, None) (None, None)
         None (None, None) [("default", "object", EmptyString)].

(** The live object lacks a field of the expected one. *)
Definition clusterDrifted : Fake :=
  mkFake [revision 1 "deployed" "M1"] None None "M1" (None, None) (None, None)
         None (None, None) [("default", "object", "M")].

(** * Properties *)

(** ** Substrings *)

Lemma prefix_refl (s : string) : String.prefix s s = true.
Proof.
  induction s as [|a s IH]; simpl; [reflexivity|].
  destruct (ascii_dec a a) as [_|n]; [exact IH | now elim n].
Qed.

Lemma prefix_nil (s : string) : String.prefix "" s = true.
Proof. now destruct s. Qed.

Lemma prefix_app (p s t : string) :
  String.prefix p s = true -> String.prefix p (s ++ t) = true.
Proof.
  revert s; induction p as [|a p IH]; intros s H; [apply prefix_nil|].
  destruct s as [|b s]; simpl in *; [discriminate|].
  destruct (ascii_dec a b); [now apply IH | discriminate].
Qed.

Lemma strings_Contains_nil (s : string) : strings_Contains s "" = true.
Proof. now destruct s. Qed.

Lemma strings_Contains_refl (s : string) : strings_Contains s s = true.
Proof.
  destruct s as [|a s]; [reflexivity|].
  cbn [strings_Contains]; now rewrite prefix_refl.
Qed.

Lemma strings_Contains_app_l (s t sub : string) :
  strings_Contains s sub = true -> strings_Contains (s ++ t) sub = true.
Proof.
  induction s as [|a s IH]; intros H.
  - destruct sub; [apply strings_Contains_nil | discriminate].
  - cbn [strings_Contains] in H.
    change (String a s ++ t) with (String a (s ++ t)).
    cbn [strings_Contains].
    destruct (String.prefix sub (String a s)) eqn:E.
    + change (String a (s ++ t)) with (String a s ++ t).
      now rewrite (prefix_app _ _ t E).
    + destruct (String.prefix sub (String a (s ++ t))); [reflexivity | now apply IH].
Qed.

Lemma strings_Contains_app_r (s t sub : string) :
  strings_Contains t sub = true -> strings_Contains (s ++ t) sub = true.
Proof.
  induction s as [|a s IH]; intros H; [exact H|].
  change (String a s ++ t) with (String a (s ++ t)).
  cbn [strings_Contains].
  destruct (String.prefix sub (String a (s ++ t))); [reflexivity | now apply IH].
Qed.

(** The message of an error built by [fmt.Errorf] from two errors names
    both of them. *)
Lemma combined_message_names_both (p q : string) (e1 e2 : error) :
  strings_Contains (p ++ Error e1 ++ q ++ Error e2) (Error e1) = true /\
  strings_Contains (p ++ Error e1 ++ q ++ Error e2) (Error e2) = true.
Proof.
  split.
  - apply strings_Contains_app_r, strings_Contains_app_l, strings_Contains_refl.
  - now do 3 apply strings_Contains_app_r; apply strings_Contains_refl.
Qed.

(** ** The model on small inputs *)

Example notFoundErr_ErrReleaseNotFound :
  notFoundErr (Some ErrReleaseNotFound) = true.
Proof. reflexivity. Qed.

Example notFoundErr_wrapped :
  notFoundErr (Some (fmt_Errorf_w "failed to get release history: "
                                  (errorString "release: not found"))) = true.
Proof. reflexivity. Qed.

Example notFoundErr_other :
  notFoundErr (Some connectionRefused) = false /\ notFoundErr None = false.
Proof. split; reflexivity. Qed.

Example errors_Is_follows_the_chain :
  errors_Is_ErrReleaseNotFound
    (Some (fmt_Errorf_w "failed to get deployed release: " ErrReleaseNotFound)) = true /\
  errors_Is_ErrReleaseNotFound (Some (errorString "release: not found")) = false.
Proof. split; reflexivity. Qed.

Example generatePatch_added_field :
  generatePatch fakeJSON "M1" "M1+" = (Some (list_byte_of_string "add/+"), None).
Proof. reflexivity. Qed.

Example generatePatch_equal_objects :
  generatePatch fakeJSON "M1" "M1" = (None, None).
Proof. reflexivity. Qed.

Example Sync_prunes_and_finds_deployed :
  calls (snd (Sync fakeManager (start storeMixed)))
    = [CallHistory "demo"; CallDelete "demo" 2; CallDelete "demo" 3;
       CallDeployed "demo"; CallUpgrade "default" true "demo"].
Proof. reflexivity. Qed.

Section Properties.

Context {W Object Chart Values JValue : Type}.

Local Abbreviation manager' := (@manager W Object Chart Values).
Local Abbreviation state := (St W Object).

(** ** Running a call *)

Lemma call_eq {R : Type} (c : Call Object) (f : W -> R * W)
    (s : state) (r : R) (w' : W) :
  f (world s) = (r, w') ->
  call c f s = (Returned r, mkSt w' (calls s ++ [c])).
Proof. intros H; unfold call; now rewrite H. Qed.

Lemma bind_call {R A : Type} (c : Call Object) (f : W -> R * W)
    (k : R -> M W Object A) (s : state) (r : R) (w' : W) :
  f (world s) = (r, w') ->
  bind (call c f) k s = k r (mkSt w' (calls s ++ [c])).
Proof. intros H; unfold bind; now rewrite (call_eq c f s r w' H). Qed.

Lemma bind_ret {A B : Type} (a : A) (k : A -> M W Object B) (s : state) :
  bind (ret a) k s = k a s.
Proof. reflexivity. Qed.

(** ** The log only grows *)

Lemma grows_ret {A : Type} (a : A) : grows (W := W) (Object := Object) (ret a).
Proof. intros s; exists []; simpl; now rewrite app_nil_r. Qed.

Lemma grows_panic {A : Type} : grows (@panic W Object A).
Proof. intros s; exists []; simpl; now rewrite app_nil_r. Qed.

Lemma grows_call {R : Type} (c : Call Object) (f : W -> R * W) :
  grows (call c f).
Proof. intros s; exists [c]; unfold call; now destruct (f (world s)). Qed.

Lemma grows_deref {A : Type} (p : option A) : grows (@deref W Object A p).
Proof. destruct p; [apply grows_ret | apply grows_panic]. Qed.

Lemma grows_bind {A B : Type} (c : M W Object A) (k : A -> M W Object B) :
  grows c -> (forall a, grows (k a)) -> grows (bind c k).
Proof.
  intros Hc Hk s; unfold bind.
  destruct (Hc s) as [l Hl]; destruct (c s) as [[a|] s1]; simpl in *.
  - destruct (Hk a s1) as [l' Hl']; exists (l ++ l')%list.
    now rewrite Hl', Hl, app_assoc.
  - now exists l.
Qed.

Lemma grows_cleanup (st : @Storage W) (releases : list (option rpb.Release)) :
  grows (cleanup (Object := Object) st releases).
Proof.
  induction releases as [|p rest IH]; simpl; [apply grows_ret|].
  apply grows_bind; [apply grows_deref|]; intros rel.
  destruct (stale rel); [|exact IH].
  apply grows_bind; [apply grows_call|]; intros [x err].
  destruct (notNilAndNotNotFound err); [apply grows_ret | exact IH].
Qed.

Lemma grows_Sync_deployed (m : manager') : grows (Sync_deployed m).
Proof.
  unfold Sync_deployed, getDeployedRelease, getCandidateRelease.
  apply grows_bind.
  - apply grows_bind; [apply grows_call|]; intros [x [e|]];
      [destruct (strings_Contains _ _)|]; apply grows_ret.
  - intros [d err]. destruct (errors_Is_ErrReleaseNotFound err); [apply grows_ret|].
    destruct err; [apply grows_ret|].
    apply grows_bind; [apply grows_call|]; intros [c [e|]]; [apply grows_ret|].
    apply grows_bind; [apply grows_deref|]; intros d'.
    apply grows_bind; [apply grows_deref|]; intros c'.
    destruct (negb _); apply grows_ret.
Qed.

Lemma grows_Sync_cleanup (m : manager') (releases : list (option rpb.Release)) :
  grows (Sync_cleanup m releases).
Proof.
  unfold Sync_cleanup. apply grows_bind; [apply grows_cleanup|].
  intros [e|]; [apply grows_ret | apply grows_Sync_deployed].
Qed.

(** The loop over a history [pre ++ post] that gets through [pre] goes on
    with [post]. *)
Lemma cleanup_app (st : @Storage W) (pre post : list (option rpb.Release))
    (s s2 : state) :
  cleanup st pre s = (Returned None, s2) ->
  cleanup st (pre ++ post) s = cleanup st post s2.
Proof.
  revert s; induction pre as [|p pre IH]; intros s H; simpl in *.
  - unfold ret in H; now inversion H.
  - unfold bind in *. destruct (deref p s) as [[rel|] s1]; [|discriminate].
    destruct (stale rel); [|now apply IH].
    destruct (call _ _ s1) as [[[x err]|] s1']; [|discriminate].
    destruct (notNilAndNotNotFound err); [discriminate | now apply IH].
Qed.

(** The loop issues [Delete] calls and nothing else. *)
Lemma cleanup_only_deletes (st : @Storage W) (releases : list (option rpb.Release))
    (s s' : state) (r : outcome (option error)) :
  cleanup st releases s = (r, s') ->
  exists deletes,
    calls s' = (calls s ++ deletes)%list /\
    Forall (fun c => isDelete c = true) deletes.
Proof.
  revert s; induction releases as [|p rest IH]; intros s H; simpl in H.
  - inversion H; subst. exists []. now rewrite app_nil_r.
  - destruct p as [rel|]; cbn [deref] in H.
    + rewrite bind_ret in H. destruct (stale rel); [|now apply IH].
      unfold bind, call in H.
      destruct (Delete st (rpb.Name rel) (rpb.Version rel) (world s))
        as [[x err] w'].
      destruct (notNilAndNotNotFound err).
      * inversion H; subst. cbn [calls]. eexists; split; [reflexivity|].
        now repeat constructor.
      * destruct (IH _ H) as (l & Hl & Hall). cbn [calls] in Hl.
        exists (CallDelete (rpb.Name rel) (rpb.Version rel) :: l).
        split; [now rewrite Hl, <- app_assoc | now constructor].
    + inversion H; subst. exists []. now rewrite app_nil_r.
Qed.

Lemma notNilAndNotNotFound_None (err : option error) :
  err = None \/ notFoundErr err = true -> notNilAndNotNotFound err = None.
Proof.
  intros [->|H]; [reflexivity|].
  unfold notNilAndNotNotFound; destruct err; [now rewrite H | reflexivity].
Qed.

Lemma notNilAndNotNotFound_Some (e : error) :
  notFoundErr (Some e) = false -> notNilAndNotNotFound (Some e) = Some e.
Proof. intros H; unfold notNilAndNotNotFound; now rewrite H. Qed.

(** ** Sync *)

(** A pass whose history fetch is let through and whose loop runs to its
    end goes on with the deployed release. *)
Lemma Sync_reaches_deployed (m : manager') (s s2 : state)
    (releases : list (option rpb.Release)) (herr : option error) (w1 : W) :
  History (storageBackend m) (releaseName m) (world s) = ((releases, herr), w1) ->
  notNilAndNotNotFound herr = None ->
  cleanup (storageBackend m) releases
          (mkSt w1 (calls s ++ [CallHistory (releaseName m)])) = (Returned None, s2) ->
  Sync m s = Sync_deployed m s2.
Proof.
  intros H1 H2 H3. unfold Sync.
  rewrite (bind_call _ _ _ s _ _ H1); cbv beta iota.
  rewrite H2. unfold Sync_cleanup, bind. now rewrite H3.
Qed.

(** C1 (as amended).  In a pass of [Sync] that finds a deployed release [d]
    and whose dry run yields a candidate [c], [Sync] returns nil and leaves
    [isUpdateRequired] at its value before the pass, raised to true when
    the manifest of [d] differs from the manifest of [c].  Starting from
    false (a manager as constructed), the flag is true exactly when the two
    manifests differ; starting from true, it stays true. *)
Theorem C1_Sync_isUpdateRequired (m : manager') (s s2 : state)
    (releases : list (option rpb.Release)) (herr : option error)
    (w1 w3 w4 : W) (d c : rpb.Release) :
  History (storageBackend m) (releaseName m) (world s) = ((releases, herr), w1) ->
  notNilAndNotNotFound herr = None ->
  cleanup (storageBackend m) releases
          (mkSt w1 (calls s ++ [CallHistory (releaseName m)])) = (Returned None, s2) ->
  Deployed (storageBackend m) (releaseName m) (world s2) = ((Some d, None), w3) ->
  UpgradeRun (actionConfig m) (namespace m) true (releaseName m)
             (chart m) (values m) w3 = ((Some c, None), w4) ->
  exists m' : manager',
    Sync m s =
      (Returned (m', None),
       mkSt w4 (calls s2 ++ [CallDeployed (releaseName m);
                             CallUpgrade (namespace m) true (releaseName m)])) /\
    isInstalled m' = true /\
    deployedRelease m' = Some d /\
    isUpdateRequired m' =
      (isUpdateRequired m || negb (String.eqb (rpb.Manifest d) (rpb.Manifest c)))%bool /\
    (isUpdateRequired m = false ->
     (isUpdateRequired m' = true <-> rpb.Manifest d <> rpb.Manifest c)) /\
    (isUpdateRequired m = true -> isUpdateRequired m' = true).
Proof.
  intros H1 H2 H3 H4 H5.
  rewrite (Sync_reaches_deployed m s s2 releases herr w1 H1 H2 H3).
  unfold Sync_deployed, getDeployedRelease, getCandidateRelease.
  unfold bind at 1. rewrite (bind_call _ _ _ s2 _ _ H4); cbv beta iota.
  unfold ret at 1. cbn [errors_Is_ErrReleaseNotFound].
  cbn [set_isInstalled set_deployedRelease actionConfig namespace releaseName
       chart values].
  erewrite bind_call by (cbn [world]; exact H5). cbv beta iota.
  cbn [deref bind ret calls].
  rewrite <- app_assoc; cbn [app].
  destruct (String.eqb_spec (rpb.Manifest d) (rpb.Manifest c)) as [E|E];
    cbn [negb]; eexists; (split; [reflexivity|]);
    cbn [isInstalled isUpdateRequired deployedRelease set_isUpdateRequired
         set_isInstalled set_deployedRelease];
    rewrite ?orb_true_r, ?orb_false_r; repeat split; intros; congruence.
Qed.

(** C4 (as amended).  In a pass of [Sync] whose history fetch is let
    through, take a revision [rel] of the history whose status (the field
    [Status] of its [Info]) is not "deployed", reached by the loop (the
    revisions before it were handled without an error).
    Then [Delete] is issued for the name and version of [rel].  When it
    answers without an error, or with an error whose message contains
    "not found", whatever the cause of that error, the pass goes on with
    the revisions after [rel]; when it answers with an error whose message
    does not contain "not found", the pass ends there and returns that
    error, wrapped. *)
Theorem C4_Sync_deletes_stale_revisions (m : manager') (s s2 : state)
    (herr derr : option error) (w1 w3 : W)
    (pre post : list (option rpb.Release)) (rel : rpb.Release)
    (info : rpb.Info) (x : option rpb.Release) :
  History (storageBackend m) (releaseName m) (world s)
    = ((pre ++ Some rel :: post)%list, herr, w1) ->
  notNilAndNotNotFound herr = None ->
  rpb.Info_ rel = Some info ->
  rpb.Status info <> rpb.StatusDeployed ->
  cleanup (storageBackend m) pre
          (mkSt w1 (calls s ++ [CallHistory (releaseName m)])) = (Returned None, s2) ->
  Delete (storageBackend m) (rpb.Name rel) (rpb.Version rel) (world s2)
    = ((x, derr), w3) ->
  let s3 := mkSt w3 (calls s2 ++ [CallDelete (rpb.Name rel) (rpb.Version rel)]) in
  In (CallDelete (rpb.Name rel) (rpb.Version rel)) (calls (snd (Sync m s))) /\
  (derr = None \/
   (exists e, derr = Some e /\ strings_Contains (Error e) "not found" = true) ->
   Sync m s = Sync_cleanup m post s3) /\
  (forall e, derr = Some e -> strings_Contains (Error e) "not found" = false ->
   Sync m s =
     (Returned (m, Some (fmt_Errorf_w "failed to delete stale release version: " e)),
      s3)).
Proof.
  intros H1 H2 Hinfo Hstatus H3 H4 s3.
  assert (Hstale : stale rel = true).
  { unfold stale; rewrite Hinfo.
    destruct (String.eqb_spec (rpb.Status info) rpb.StatusDeployed);
      [contradiction | reflexivity]. }
  assert (Hstep : Sync m s =
            match notNilAndNotNotFound derr with
            | Some e =>
                (Returned (m, Some (fmt_Errorf_w
                                      "failed to delete stale release version: " e)),
                 s3)
            | None => Sync_cleanup m post s3
            end).
  { unfold Sync. rewrite (bind_call _ _ _ s _ _ H1); cbv beta iota.
    rewrite H2. unfold Sync_cleanup. unfold bind at 1.
    rewrite (cleanup_app _ pre (Some rel :: post) _ s2 H3).
    cbn [cleanup deref]. rewrite bind_ret, Hstale.
    rewrite (bind_call _ _ _ s2 _ _ H4); cbv beta iota.
    fold s3. destruct (notNilAndNotNotFound derr); reflexivity. }
  assert (Hcont : derr = None \/
                  (exists e, derr = Some e /\
                             strings_Contains (Error e) "not found" = true) ->
                  Sync m s = Sync_cleanup m post s3).
  { intros [->|(e & -> & He)]; rewrite Hstep; [reflexivity|].
    now rewrite (notNilAndNotNotFound_None (Some e) (or_intror He)). }
  assert (Habort : forall e, derr = Some e ->
            strings_Contains (Error e) "not found" = false ->
            Sync m s =
              (Returned (m, Some (fmt_Errorf_w
                                    "failed to delete stale release version: " e)), s3)).
  { intros e -> He. now rewrite Hstep, (notNilAndNotNotFound_Some e He). }
  split; [|split; assumption].
  destruct derr as [e|].
  - destruct (strings_Contains (Error e) "not found") eqn:E.
    + rewrite (Hcont (or_intror (ex_intro _ e (conj eq_refl E)))).
      destruct (grows_Sync_cleanup m post s3) as [l ->].
      apply in_or_app; left; apply in_or_app; right; now left.
    + rewrite (Habort e eq_refl E); cbn [snd s3 calls].
      apply in_or_app; right; now left.
  - rewrite (Hcont (or_introl eq_refl)).
    destruct (grows_Sync_cleanup m post s3) as [l ->].
    apply in_or_app; left; apply in_or_app; right; now left.
Qed.

(** C5 (as amended).  In a pass of [Sync] in which the store reports that
    the release has no deployed revision, [Sync] returns nil and leaves the
    manager as it was: [isInstalled] keeps the value it had before the
    pass, which is false for a manager as constructed.  The calls of the
    pass are [History], the [Delete]s of the loop and [Deployed]: there is
    no dry run. *)
Theorem C5_Sync_no_deployed_release (m : manager') (s s2 : state)
    (releases : list (option rpb.Release)) (herr : option error)
    (w1 w3 : W) (x : option rpb.Release) (e : error) :
  History (storageBackend m) (releaseName m) (world s) = ((releases, herr), w1) ->
  notNilAndNotNotFound herr = None ->
  cleanup (storageBackend m) releases
          (mkSt w1 (calls s ++ [CallHistory (releaseName m)])) = (Returned None, s2) ->
  Deployed (storageBackend m) (releaseName m) (world s2) = ((x, Some e), w3) ->
  strings_Contains (Error e) "has no deployed releases" = true
  \/ Is_ErrReleaseNotFound e = true ->
  Sync m s =
    (Returned (m, None), mkSt w3 (calls s2 ++ [CallDeployed (releaseName m)])) /\
  exists deletes,
    (calls s2 ++ [CallDeployed (releaseName m)]
     = calls s ++ CallHistory (releaseName m) :: deletes
               ++ [CallDeployed (releaseName m)])%list /\
    Forall (fun c => isDelete c = true) deletes /\
    filter isUpgrade (CallHistory (releaseName m) :: deletes
                      ++ [CallDeployed (releaseName m)])%list = [].
Proof.
  intros H1 H2 H3 H4 He. split.
  - rewrite (Sync_reaches_deployed m s s2 releases herr w1 H1 H2 H3).
    unfold Sync_deployed, getDeployedRelease.
    unfold bind at 1. rewrite (bind_call _ _ _ s2 _ _ H4); cbv beta iota.
    destruct (strings_Contains (Error e) "has no deployed releases") eqn:E.
    + reflexivity.
    + destruct He as [He|He]; [discriminate|].
      unfold ret at 1. cbn [errors_Is_ErrReleaseNotFound]. now rewrite He.
  - destruct (cleanup_only_deletes _ _ _ _ _ H3) as (deletes & Hlog & Hall).
    cbn [calls] in Hlog. exists deletes. split; [|split].
    + rewrite Hlog, <- !app_assoc. reflexivity.
    + exact Hall.
    + cbn [filter isUpgrade]. clear Hlog.
      induction Hall as [|c l Hc _ IH]; [reflexivity|].
      cbn [app filter]. destruct c; try discriminate. exact IH.
Qed.

(** C9.  [notFoundErr] holds of an error exactly when its message contains
    "not found".  Whatever the cause of such an error: when [History]
    answers with it, [Sync] goes on with the revisions [History] returned;
    when [Delete] answers with it, the loop of [Sync] goes on with the next
    revision; when the uninstall that follows a failed install answers with
    it, [InstallRelease] returns the install error alone. *)
Theorem C9_notFoundErr_is_substring_match :
  (forall err : option error,
      notFoundErr err = true <->
      exists e, err = Some e /\ strings_Contains (Error e) "not found" = true) /\
  (forall (m : manager') (s : state) releases e w1,
      History (storageBackend m) (releaseName m) (world s)
        = ((releases, Some e), w1) ->
      strings_Contains (Error e) "not found" = true ->
      Sync m s =
        Sync_cleanup m releases (mkSt w1 (calls s ++ [CallHistory (releaseName m)]))) /\
  (forall (st : @Storage W) (s : state) rel rest x e w1,
      stale rel = true ->
      Delete st (rpb.Name rel) (rpb.Version rel) (world s) = ((x, Some e), w1) ->
      strings_Contains (Error e) "not found" = true ->
      cleanup st (Some rel :: rest) s =
        cleanup st rest
                (mkSt w1 (calls s ++ [CallDelete (rpb.Name rel) (rpb.Version rel)]))) /\
  (forall (m : manager') (s : state) rel e r ue w1 w2,
      InstallRun (actionConfig m) (releaseName m) (namespace m) (chart m) (values m)
                 (world s) = ((Some rel, Some e), w1) ->
      UninstallRun (actionConfig m) (releaseName m) w1 = ((r, Some ue), w2) ->
      strings_Contains (Error ue) "not found" = true ->
      InstallRelease m s =
        (Returned (None, Some (fmt_Errorf_w "failed to install release: " e)),
         mkSt w2 (calls s ++ [CallInstall (releaseName m) (namespace m);
                              CallUninstall (releaseName m)]))).
Proof.
  repeat split.
  - destruct err as [e|]; simpl; [eauto | discriminate].
  - intros (e & -> & H); exact H.
  - intros m s releases e w1 H1 He. unfold Sync.
    rewrite (bind_call _ _ _ s _ _ H1); cbv beta iota.
    now rewrite (notNilAndNotNotFound_None (Some e) (or_intror He)).
  - intros st s rel rest x e w1 Hstale H1 He.
    cbn [cleanup deref]. rewrite bind_ret, Hstale.
    rewrite (bind_call _ _ _ s _ _ H1); cbv beta iota.
    now rewrite (notNilAndNotNotFound_None (Some e) (or_intror He)).
  - intros m s rel e r ue w1 w2 H1 H2 He. unfold InstallRelease.
    rewrite (bind_call _ _ _ s _ _ H1); cbv beta iota.
    erewrite bind_call by (cbn [world]; exact H2). cbv beta iota.
    rewrite (notNilAndNotNotFound_None (Some ue) (or_intror He)).
    unfold ret; cbn [calls]. now rewrite <- app_assoc.
Qed.

(** ** InstallRelease and UpdateRelease *)

(** X25.  When the install returns a release together with an error,
    [InstallRelease] runs the uninstall of the release name.  When the
    uninstall answers without an error, or with an error that [notFoundErr]
    accepts (its message contains "not found"), [InstallRelease] returns
    the install error, wrapped, and nothing of the uninstall; when it
    answers with an error that [notFoundErr] does not accept,
    [InstallRelease] returns one error whose message names the install
    error and the uninstall error, and which wraps the uninstall error. *)
Theorem InstallRelease_compensating_uninstall (m : manager') (s : state)
    (rel : rpb.Release) (e : error)
    (r : option response.UninstallReleaseResponse) (uerr : option error)
    (w1 w2 : W) :
  InstallRun (actionConfig m) (releaseName m) (namespace m) (chart m) (values m)
             (world s) = ((Some rel, Some e), w1) ->
  UninstallRun (actionConfig m) (releaseName m) w1 = ((r, uerr), w2) ->
  let s2 := mkSt w2 (calls s ++ [CallInstall (releaseName m) (namespace m);
                                 CallUninstall (releaseName m)]) in
  (exists err, InstallRelease m s = (Returned (None, Some err), s2)) /\
  (uerr = None \/ notFoundErr uerr = true ->
   InstallRelease m s =
     (Returned (None, Some (fmt_Errorf_w "failed to install release: " e)), s2)) /\
  (forall ue, uerr = Some ue -> notFoundErr uerr = false ->
   exists err,
     InstallRelease m s = (Returned (None, Some err), s2) /\
     err = wrapError ("failed installation (" ++ Error e
                      ++ ") and failed rollback: " ++ Error ue) ue /\
     strings_Contains (Error err) (Error e) = true /\
     strings_Contains (Error err) (Error ue) = true).
Proof.
  intros H1 H2 s2.
  assert (Hrun : InstallRelease m s =
            (Returned
               (None,
                Some match notNilAndNotNotFound uerr with
                     | Some ue =>
                         wrapError ("failed installation (" ++ Error e
                                    ++ ") and failed rollback: " ++ Error ue) ue
                     | None => fmt_Errorf_w "failed to install release: " e
                     end), s2)).
  { unfold InstallRelease.
    rewrite (bind_call _ _ _ s _ _ H1); cbv beta iota.
    erewrite bind_call by (cbn [world]; exact H2). cbv beta iota.
    cbn [calls]. rewrite <- app_assoc; cbn [app]. fold s2.
    destruct (notNilAndNotNotFound uerr); reflexivity. }
  split; [eexists; exact Hrun|]. split.
  - intros H. now rewrite Hrun, (notNilAndNotNotFound_None uerr H).
  - intros ue -> H. rewrite Hrun, (notNilAndNotNotFound_Some ue H).
    eexists; split; [reflexivity|]. split; [reflexivity|].
    apply combined_message_names_both.
Qed.

(** C3.  When the upgrade returns a release together with an error,
    [UpdateRelease] runs a forced rollback.  When the rollback answers with
    an error, of whatever kind, [UpdateRelease] returns one error whose
    message names the update error and the rollback error, and which wraps
    the rollback error; when the rollback answers without an error,
    [UpdateRelease] returns the update error, wrapped.  Both releases it
    returns are nil in either case. *)
Theorem C3_UpdateRelease_forced_rollback (m : manager') (s : state)
    (rel : rpb.Release) (e : error) (rerr : option error) (w1 w2 : W) :
  UpgradeRun (actionConfig m) (namespace m) false (releaseName m)
             (chart m) (values m) (world s) = ((Some rel, Some e), w1) ->
  RollbackRun (actionConfig m) true (releaseName m) w1 = (rerr, w2) ->
  let s2 := mkSt w2 (calls s ++ [CallUpgrade (namespace m) false (releaseName m);
                                 CallRollback true (releaseName m)]) in
  (rerr = None ->
   UpdateRelease m s =
     (Returned (None, None, Some (fmt_Errorf_w "failed to update release: " e)), s2)) /\
  (forall re, rerr = Some re ->
   exists err,
     UpdateRelease m s = (Returned (None, None, Some err), s2) /\
     err = wrapError ("failed update (" ++ Error e
                      ++ ") and failed rollback: " ++ Error re) re /\
     strings_Contains (Error err) (Error e) = true /\
     strings_Contains (Error err) (Error re) = true).
Proof.
  intros H1 H2 s2.
  assert (Hrun : UpdateRelease m s =
            (Returned
               (None, None,
                Some match rerr with
                     | Some re =>
                         wrapError ("failed update (" ++ Error e
                                    ++ ") and failed rollback: " ++ Error re) re
                     | None => fmt_Errorf_w "failed to update release: " e
                     end), s2)).
  { unfold UpdateRelease.
    rewrite (bind_call _ _ _ s _ _ H1); cbv beta iota.
    erewrite bind_call by (cbn [world]; exact H2).
    cbn [calls]. rewrite <- app_assoc; cbn [app]. fold s2.
    destruct rerr; reflexivity. }
  split.
  - intros ->. exact Hrun.
  - intros re ->. rewrite Hrun.
    eexists; split; [reflexivity|]. split; [reflexivity|].
    apply combined_message_names_both.
Qed.

(** ** UninstallRelease *)

(** C8.  When [History] answers with no revision and no error,
    [UninstallRelease] returns [driver.ErrReleaseNotFound] and a nil
    release, and the call to [History] is the only call it issues. *)
Theorem C8_UninstallRelease_empty_history (m : manager') (s : state) (w1 : W) :
  History (storageBackend m) (releaseName m) (world s) = (([], None), w1) ->
  UninstallRelease m s =
    (Returned (None, Some ErrReleaseNotFound),
     mkSt w1 (calls s ++ [CallHistory (releaseName m)])).
Proof.
  intros H1. unfold UninstallRelease.
  now rewrite (bind_call _ _ _ s _ _ H1).
Qed.

(** C10.  When [History] answers with at least one revision and no error,
    [UninstallRelease] runs the uninstall and reads the field [Release] of
    its response whatever the error is: with a response it returns that
    release and the error of the uninstall; with a nil response it panics,
    also when the uninstall returned an error. *)
Theorem C10_UninstallRelease_reads_response (m : manager') (s : state)
    (h : list (option rpb.Release)) (w1 w2 : W)
    (r : option response.UninstallReleaseResponse) (err : option error) :
  History (storageBackend m) (releaseName m) (world s) = ((h, None), w1) ->
  h <> [] ->
  UninstallRun (actionConfig m) (releaseName m) w1 = ((r, err), w2) ->
  UninstallRelease m s =
    (match r with
     | Some resp => Returned (response.Release resp, err)
     | None => Panicked
     end,
     mkSt w2 (calls s ++ [CallHistory (releaseName m);
                          CallUninstall (releaseName m)])).
Proof.
  intros H1 Hh H2. unfold UninstallRelease.
  rewrite (bind_call _ _ _ s _ _ H1); cbv beta iota.
  destruct h as [|p h]; [contradiction|]. cbn [length Nat.eqb].
  erewrite bind_call by (cbn [world]; exact H2). cbv beta iota.
  cbn [calls]. rewrite <- app_assoc; cbn [app].
  destruct r; reflexivity.
Qed.

(** ** generatePatch and reconcileRelease *)

Section Patches.

Variable js : @JSON Object JValue.
Variable reasonNotFound : error -> bool.

Lemma patchOps_In (ops : list (jsonpatch.JsonPatchOperation JValue))
    (op : jsonpatch.JsonPatchOperation JValue) :
  In op (patchOps ops) <-> In op ops /\ jsonpatch.Operation op <> "remove".
Proof.
  induction ops as [|o ops IH]; simpl; [tauto|].
  destruct (String.eqb_spec (jsonpatch.Operation o) "remove") as [E|E]; simpl.
  - rewrite IH. split; [tauto|]. intros [[->|H] Hne]; [contradiction | tauto].
  - rewrite IH. split.
    + intros [->|H]; tauto.
    + tauto.
Qed.

Lemma patchOps_removals (ops : list (jsonpatch.JsonPatchOperation JValue)) :
  Forall (fun op => jsonpatch.Operation op = "remove") ops -> patchOps ops = [].
Proof.
  induction 1 as [|o ops Ho _ IH]; simpl; [reflexivity|].
  now rewrite Ho, IH.
Qed.

Lemma generatePatch_onlyRemovals (existing expected : Object) :
  onlyRemovals js existing expected ->
  generatePatch js existing expected = (None, None).
Proof.
  intros (a & b & ops & Ha & Hb & Hops & Hrem). unfold generatePatch.
  now rewrite Ha, Hb, Hops, (patchOps_removals ops Hrem).
Qed.

(** A patch that is not nil is the encoding of the operations kept. *)
Lemma generatePatch_Some (existing expected : Object)
    (patch : list byte) (err : option error) :
  generatePatch js existing expected = (Some patch, err) ->
  exists a b ops,
    json_Marshal js existing = inl a /\
    json_Marshal js expected = inl b /\
    jsonpatch_CreatePatch js a b = (ops, None) /\
    patchOps ops <> [] /\
    json_Marshal_ops js (patchOps ops) = inl patch /\
    err = None.
Proof.
  unfold generatePatch.
  destruct (json_Marshal js existing) as [a|]; [|discriminate].
  destruct (json_Marshal js expected) as [b|]; [|discriminate].
  destruct (jsonpatch_CreatePatch js a b) as [ops [e|]] eqn:Eops; [discriminate|].
  destruct (patchOps ops) as [|o kept] eqn:E; cbn [length Nat.eqb]; [discriminate|].
  destruct (json_Marshal_ops js (o :: kept)) as [p|] eqn:Em; [|discriminate].
  intros H; inversion H; subst.
  exists a, b, ops. rewrite E. repeat split; congruence.
Qed.

(** C6.  When the diff of [existing] against [expected] holds "remove"
    operations only, [generatePatch] returns a nil patch and no error.  A
    patch that [generatePatch] does return is the encoding of the
    operations of the diff other than "remove", and of no "remove"
    operation. *)
Theorem C6_generatePatch_discards_removals (existing expected : Object)
    (a b : list byte) (ops : list (jsonpatch.JsonPatchOperation JValue)) :
  json_Marshal js existing = inl a ->
  json_Marshal js expected = inl b ->
  jsonpatch_CreatePatch js a b = (ops, None) ->
  (Forall (fun op => jsonpatch.Operation op = "remove") ops ->
   generatePatch js existing expected = (None, None)) /\
  (forall patch err,
      generatePatch js existing expected = (Some patch, err) ->
      json_Marshal_ops js (patchOps ops) = inl patch /\
      (forall op, In op (patchOps ops) <->
                  In op ops /\ jsonpatch.Operation op <> "remove")).
Proof.
  intros Ha Hb Hops. split.
  - intros Hrem. apply generatePatch_onlyRemovals. now exists a, b, ops.
  - intros patch err H.
    destruct (generatePatch_Some _ _ _ _ H)
      as (a' & b' & ops' & Ha' & Hb' & Hops' & _ & Hm & _).
    assert (ops' = ops) by congruence. subst ops'.
    split; [exact Hm | apply patchOps_In].
Qed.

Lemma Visit_converged (infos : list (@ResourceInfo W Object)) (w1 w2 : W) :
  Converged js infos w1 w2 ->
  forall l : list (Call Object),
    Visit (map Some infos) (visitor js reasonNotFound) (mkSt w1 l) =
      (Returned None,
       mkSt w2 (l ++ map (fun i => CallGet (RNamespace i) (RName i)) infos)).
Proof.
  induction 1 as [w|i rest w w' w'' existing Hget Hdiff _ IH]; intros l.
  - simpl. now rewrite app_nil_r.
  - cbn [map Visit]. unfold bind at 1. unfold visitor at 1.
    cbn [deref]. rewrite bind_ret.
    erewrite bind_call by (cbn [world]; exact Hget). cbv beta iota.
    cbn [apierrors_IsNotFound].
    rewrite (generatePatch_onlyRemovals _ _ Hdiff).
    unfold ret at 1. cbn [calls]. rewrite IH.
    now rewrite <- app_assoc.
Qed.

(** C7.  When every object of the deployed manifest is found live with a
    diff of removals only, [ReconcileRelease] returns no error and issues
    one [Build] and one [Get] for each object, hence no [Create] and no
    [Patch].  The reason: for such a diff [generatePatch] returns the nil
    patch, and a patch it returns that is not nil encodes at least one
    operation. *)
Theorem C7_ReconcileRelease_converged (m : manager') (s : state)
    (d : rpb.Release) (infos : list (@ResourceInfo W Object)) (w1 w2 : W) :
  deployedRelease m = Some d ->
  Build (kubeClient m) (rpb.Manifest d) false (world s)
    = ((map Some infos, None), w1) ->
  Converged js infos w1 w2 ->
  let issued :=
    CallBuild (rpb.Manifest d) false
      :: map (fun i => CallGet (RNamespace i) (RName i)) infos in
  ReconcileRelease js reasonNotFound m s
    = (Returned (Some d, None), mkSt w2 (calls s ++ issued)) /\
  filter isCreate issued = [] /\
  filter isPatch issued = [] /\
  (forall existing expected,
      onlyRemovals js existing expected ->
      generatePatch js existing expected = (None, None)) /\
  (forall existing expected patch err,
      generatePatch js existing expected = (Some patch, err) ->
      exists kept, kept <> [] /\ json_Marshal_ops js kept = inl patch).
Proof.
  intros Hd Hbuild Hconv issued. repeat split.
  - unfold ReconcileRelease. rewrite Hd. cbn [deref]. rewrite bind_ret.
    unfold bind at 1. unfold reconcileRelease.
    rewrite (bind_call _ _ _ s _ _ Hbuild); cbv beta iota.
    rewrite (Visit_converged infos w1 w2 Hconv).
    unfold ret, issued. now rewrite <- app_assoc.
  - unfold issued; cbn [filter isCreate].
    induction infos as [|i rest IH'] in |- *; [reflexivity | exact IH'].
  - unfold issued; cbn [filter isPatch].
    induction infos as [|i rest IH'] in |- *; [reflexivity | exact IH'].
  - apply generatePatch_onlyRemovals.
  - intros existing expected patch err H.
    destruct (generatePatch_Some _ _ _ _ H)
      as (a & b & ops & _ & _ & _ & Hne & Hm & _).
    now exists (patchOps ops).
Qed.

End Patches.

End Properties.


(** * The properties on the fake Helm *)

Lemma C1_witness :
  exists m',
    fst (Sync fakeManager (start storeChanged)) = Returned (m', None) /\
    isUpdateRequired m' = true.
Proof.
  destruct (C1_Sync_isUpdateRequired
              fakeManager (start storeChanged)
              (mkSt storeChanged [CallHistory "demo"])
              [Some (revision 1 "deployed" "M1")] None
              storeChanged storeChanged storeChanged
              (revision 1 "deployed" "M1")
              (rpb.mkRelease "demo" None "M2" 0 "default")
              eq_refl eq_refl eq_refl eq_refl eq_refl)
    as (m' & Hrun & _ & _ & Hflag & _).
  exists m'. split; [now rewrite Hrun | now rewrite Hflag].
Defined.

(** C1 (as stated) fails.  A first pass on a new manager finds the chart
    changed and raises [isUpdateRequired].  A second pass on the same
    manager finds the deployed manifest and the candidate manifest equal,
    byte for byte, and returns nil; the flag is still true. *)
Lemma C1_counterexample :
  fst (Sync fakeManager (start storeChanged)) = Returned (updatedManager, None) /\
  Deployed fakeStorage "demo" storeDeployed
    = ((Some (revision 1 "deployed" "M1"), None), storeDeployed) /\
  UpgradeRun fakeConfiguration "default" true "demo" tt tt storeDeployed
    = ((Some (rpb.mkRelease "demo" None "M1" 0 "default"), None), storeDeployed) /\
  Sync updatedManager (start storeDeployed)
    = (Returned (updatedManager, None),
       mkSt storeDeployed [CallHistory "demo"; CallDeployed "demo";
                           CallUpgrade "default" true "demo"]) /\
  isUpdateRequired updatedManager
    <> negb (String.eqb (rpb.Manifest (revision 1 "deployed" "M1"))
                        (rpb.Manifest (rpb.mkRelease "demo" None "M1" 0 "default"))).
Proof.
  repeat split; try reflexivity. vm_compute. discriminate.
Qed.

Lemma X25_witness :
  fst (InstallRelease fakeManager
         (start (partialFailure None (Some ErrReleaseNotFound))))
    = Returned (None, Some (fmt_Errorf_w "failed to install release: "
                                         (errorString "timed out"))) /\
  exists err,
    fst (InstallRelease fakeManager
           (start (partialFailure None (Some connectionRefused))))
      = Returned (None, Some err) /\
    strings_Contains (Error err) "timed out" = true /\
    strings_Contains (Error err) (Error connectionRefused) = true.
Proof.
  split.
  - destruct (InstallRelease_compensating_uninstall
                fakeManager (start (partialFailure None (Some ErrReleaseNotFound)))
                (revision 1 "failed" "M1") (errorString "timed out")
                None (Some ErrReleaseNotFound) _ _ eq_refl eq_refl)
      as (_ & Hnf & _).
    now rewrite (Hnf (or_intror eq_refl)).
  - destruct (InstallRelease_compensating_uninstall
                fakeManager (start (partialFailure None (Some connectionRefused)))
                (revision 1 "failed" "M1") (errorString "timed out")
                None (Some connectionRefused) _ _ eq_refl eq_refl)
      as (_ & _ & Hesc).
    destruct (Hesc connectionRefused eq_refl eq_refl) as (err & Hrun & _ & H1 & H2).
    exists err. now rewrite Hrun.
Defined.

(** C2 (the code departs from it).  The install returns a release
    together with the error "timed out", and the compensating uninstall
    fails because a host name cannot be resolved: a failure that is not a
    "release not found" condition ([errors.Is] does not find
    [driver.ErrReleaseNotFound] in it, and its message is not that of the
    missing release).  C2 asks for a combined error that refers to both
    failures.  [InstallRelease] runs the uninstall and returns the install
    error alone, with nothing of the uninstall failure in its message:
    [notFoundErr] accepts any message that contains "not found". *)
Lemma C2_InstallRelease_swallows_unrelated_uninstall_failure :
  UninstallRun fakeConfiguration "demo" (partialFailure None (Some hostNotFound))
    = ((None, Some hostNotFound), partialFailure None (Some hostNotFound)) /\
  errors_Is_ErrReleaseNotFound (Some hostNotFound) = false /\
  Error hostNotFound <> Error ErrReleaseNotFound /\
  InstallRelease fakeManager (start (partialFailure None (Some hostNotFound)))
    = (Returned (None, Some (fmt_Errorf_w "failed to install release: "
                                          (errorString "timed out"))),
       mkSt (partialFailure None (Some hostNotFound))
            [CallInstall "demo" "default"; CallUninstall "demo"]) /\
  strings_Contains
    (Error (fmt_Errorf_w "failed to install release: " (errorString "timed out")))
    (Error hostNotFound) = false.
Proof.
  split; [reflexivity|]. split; [reflexivity|]. split; [discriminate|].
  split; reflexivity.
Qed.

Lemma C3_witness :
  fst (UpdateRelease fakeManager (start (partialFailure None None)))
    = Returned (None, None, Some (fmt_Errorf_w "failed to update release: "
                                               (errorString "timed out"))) /\
  exists err,
    fst (UpdateRelease fakeManager
           (start (partialFailure (Some ErrReleaseNotFound) None)))
      = Returned (None, None, Some err) /\
    strings_Contains (Error err) "timed out" = true /\
    strings_Contains (Error err) (Error ErrReleaseNotFound) = true.
Proof.
  split.
  - destruct (C3_UpdateRelease_forced_rollback
                fakeManager (start (partialFailure None None))
                (revision 2 "failed" "M2") (errorString "timed out")
                None _ _ eq_refl eq_refl) as (Hok & _).
    now rewrite (Hok eq_refl).
  - destruct (C3_UpdateRelease_forced_rollback
                fakeManager (start (partialFailure (Some ErrReleaseNotFound) None))
                (revision 2 "failed" "M2") (errorString "timed out")
                (Some ErrReleaseNotFound) _ _ eq_refl eq_refl) as (_ & Hesc).
    destruct (Hesc ErrReleaseNotFound eq_refl) as (err & Hrun & _ & H1 & H2).
    exists err. now rewrite Hrun.
Defined.

Lemma C4_witness :
  In (CallDelete "demo" 2) (calls (snd (Sync fakeManager (start storeMixed)))) /\
  Sync fakeManager (start storeDeleteUnresolved)
    = Sync_cleanup fakeManager []
        (mkSt storeDeleteUnresolved [CallHistory "demo"; CallDelete "demo" 2]) /\
  Sync fakeManager (start storeDeleteRefused)
    = (Returned (fakeManager,
                 Some (fmt_Errorf_w "failed to delete stale release version: "
                                    connectionRefused)),
       mkSt storeDeleteRefused [CallHistory "demo"; CallDelete "demo" 2]).
Proof.
  assert (Hstatus : rpb.Status (rpb.mkInfo "failed") <> rpb.StatusDeployed)
    by discriminate.
  split; [|split].
  - exact (proj1 (C4_Sync_deletes_stale_revisions
                    fakeManager (start storeMixed)
                    (mkSt storeMixed [CallHistory "demo"])
                    None None storeMixed
                    (set_revisions storeMixed
                       [revision 1 "deployed" "M1"; revision 3 "pending-install" "M3"])
                    [Some (revision 1 "deployed" "M1")]
                    [Some (revision 3 "pending-install" "M3")]
                    (revision 2 "failed" "M2") (rpb.mkInfo "failed")
                    (Some (revision 2 "failed" "M2"))
                    eq_refl eq_refl eq_refl Hstatus eq_refl eq_refl)).
  - destruct (C4_Sync_deletes_stale_revisions
                fakeManager (start storeDeleteUnresolved)
                (mkSt storeDeleteUnresolved [CallHistory "demo"])
                None (Some hostNotFound)
                storeDeleteUnresolved storeDeleteUnresolved
                [] [] (revision 2 "failed" "M1") (rpb.mkInfo "failed") None
                eq_refl eq_refl eq_refl Hstatus eq_refl eq_refl)
      as (_ & Hcont & _).
    exact (Hcont (or_intror (ex_intro _ hostNotFound (conj eq_refl eq_refl)))).
  - destruct (C4_Sync_deletes_stale_revisions
                fakeManager (start storeDeleteRefused)
                (mkSt storeDeleteRefused [CallHistory "demo"])
                None (Some connectionRefused)
                storeDeleteRefused storeDeleteRefused
                [] [] (revision 2 "failed" "M1") (rpb.mkInfo "failed") None
                eq_refl eq_refl eq_refl Hstatus eq_refl eq_refl)
      as (_ & _ & Habort).
    exact (Habort connectionRefused eq_refl eq_refl).
Defined.

(** C4 (as stated) fails.  The history holds one failed revision, and its
    [Delete] fails because a host name cannot be resolved: a failure that
    is not a not-found condition of the store ([errors.Is] does not find
    [driver.ErrReleaseNotFound] in it).  The pass does not end with an
    error: [Sync] goes on to [Deployed] and returns nil, and the failed
    revision is still in the store. *)
Lemma C4_counterexample :
  Delete fakeStorage "demo" 2 storeDeleteUnresolved
    = ((None, Some hostNotFound), storeDeleteUnresolved) /\
  errors_Is_ErrReleaseNotFound (Some hostNotFound) = false /\
  Error hostNotFound <> Error ErrReleaseNotFound /\
  Sync fakeManager (start storeDeleteUnresolved)
    = (Returned (fakeManager, None),
       mkSt storeDeleteUnresolved
            [CallHistory "demo"; CallDelete "demo" 2; CallDeployed "demo"]) /\
  revisions storeDeleteUnresolved = [revision 2 "failed" "M1"].
Proof.
  split; [reflexivity|]. split; [reflexivity|]. split; [discriminate|].
  split; reflexivity.
Qed.

Lemma C5_witness :
  Sync fakeManager (start storeFailed)
    = (Returned (fakeManager, None),
       mkSt (fakeStore [] "M1")
            [CallHistory "demo"; CallDelete "demo" 2; CallDeployed "demo"]).
Proof.
  exact (proj1 (C5_Sync_no_deployed_release
                  fakeManager (start storeFailed)
                  (mkSt (fakeStore [] "M1") [CallHistory "demo"; CallDelete "demo" 2])
                  [Some (revision 2 "failed" "M1")] None
                  storeFailed (fakeStore [] "M1") None
                  (errorString "demo has no deployed releases")
                  eq_refl eq_refl eq_refl eq_refl (or_introl eq_refl))).
Defined.

(** C5 (as stated) fails.  A first pass on a new manager finds revision 1
    deployed and sets [isInstalled].  A second pass on the same manager
    finds one failed revision, deletes it, is told that the release has no
    deployed revision and returns nil without a dry run; [isInstalled] is
    still true. *)
Lemma C5_counterexample :
  fst (Sync fakeManager (start storeDeployed)) = Returned (installedManager, None) /\
  Sync installedManager (start storeFailed)
    = (Returned (installedManager, None),
       mkSt (fakeStore [] "M1")
            [CallHistory "demo"; CallDelete "demo" 2; CallDeployed "demo"]) /\
  isInstalled installedManager <> false.
Proof.
  repeat split; try reflexivity. vm_compute. discriminate.
Qed.

Lemma C6_witness :
  generatePatch fakeJSON "M1+" "M1" = (None, None).
Proof.
  refine (proj1 (C6_generatePatch_discards_removals
                   fakeJSON "M1+" "M1"
                   (list_byte_of_string "M1+") (list_byte_of_string "M1")
                   [jsonpatch.mkOp "remove" "/+" EmptyString]
                   eq_refl eq_refl eq_refl) _).
  repeat constructor.
Defined.

Lemma clusterConverged_Converged :
  Converged fakeJSON [mkResourceInfo "default" "object" "M1" fakeHelper]
            clusterConverged clusterConverged.
Proof.
  eapply Converged_cons; [reflexivity | | apply Converged_nil].
  exists (list_byte_of_string "M1+"), (list_byte_of_string "M1"),
         [jsonpatch.mkOp "remove" "/+" EmptyString].
  repeat split; repeat constructor.
Defined.

Lemma C7_witness :
  ReconcileRelease fakeJSON fakeReasonNotFound installedManager
                   (start clusterConverged)
    = (Returned (Some (revision 1 "deployed" "M1"), None),
       mkSt clusterConverged [CallBuild "M1" false; CallGet "default" "object"]).
Proof.
  exact (proj1 (C7_ReconcileRelease_converged
                  fakeJSON fakeReasonNotFound installedManager
                  (start clusterConverged) (revision 1 "deployed" "M1")
                  [mkResourceInfo "default" "object" "M1" fakeHelper]
                  clusterConverged clusterConverged
                  eq_refl eq_refl clusterConverged_Converged)).
Defined.

Lemma C8_witness :
  UninstallRelease fakeManager (start fakeWorld)
    = (Returned (None, Some ErrReleaseNotFound),
       mkSt fakeWorld [CallHistory "demo"]).
Proof.
  exact (C8_UninstallRelease_empty_history
           fakeManager (start fakeWorld) fakeWorld eq_refl).
Defined.

Lemma C9_witness :
  notFoundErr (Some hostNotFound) = true /\
  Sync fakeManager (start storeUnreachable)
    = Sync_cleanup fakeManager [Some (revision 2 "failed" "M1")]
                   (mkSt storeUnreachable [CallHistory "demo"]) /\
  cleanup (Object := string) fakeStorage [Some (revision 2 "failed" "M1")]
          (mkSt storeUnreachable [CallHistory "demo"])
    = cleanup fakeStorage []
              (mkSt storeUnreachable [CallHistory "demo"; CallDelete "demo" 2]) /\
  InstallRelease fakeManager (start (partialFailure None (Some hostNotFound)))
    = (Returned (None, Some (fmt_Errorf_w "failed to install release: "
                                          (errorString "timed out"))),
       mkSt (partialFailure None (Some hostNotFound))
            [CallInstall "demo" "default"; CallUninstall "demo"]).
Proof.
  destruct (@C9_notFoundErr_is_substring_match Fake string unit unit)
    as (Hiff & Hhistory & Hdelete & Hinstall).
  split; [|split; [|split]].
  - apply Hiff. exists hostNotFound. split; reflexivity.
  - exact (Hhistory fakeManager (start storeUnreachable)
                    [Some (revision 2 "failed" "M1")] hostNotFound
                    storeUnreachable eq_refl eq_refl).
  - exact (Hdelete fakeStorage (mkSt storeUnreachable [CallHistory "demo"])
                   (revision 2 "failed" "M1") [] None hostNotFound
                   storeUnreachable eq_refl eq_refl eq_refl).
  - exact (Hinstall fakeManager (start (partialFailure None (Some hostNotFound)))
                    (revision 1 "failed" "M1") (errorString "timed out")
                    None hostNotFound _ _ eq_refl eq_refl eq_refl).
Defined.

Lemma C10_witness :
  UninstallRelease fakeManager
      (start (storeUninstalling (None, Some connectionRefused)))
    = (Panicked,
       mkSt (storeUninstalling (None, Some connectionRefused))
            [CallHistory "demo"; CallUninstall "demo"]) /\
  UninstallRelease fakeManager
      (start (storeUninstalling (Some uninstalledResponse, None)))
    = (Returned (Some (revision 1 "uninstalled" "M1"), None),
       mkSt (storeUninstalling (Some uninstalledResponse, None))
            [CallHistory "demo"; CallUninstall "demo"]).
Proof.
  assert (Hh : [Some (revision 1 "deployed" "M1")] <> []) by discriminate.
  split.
  - exact (C10_UninstallRelease_reads_response
             fakeManager (start (storeUninstalling (None, Some connectionRefused)))
             [Some (revision 1 "deployed" "M1")] _ _
             None (Some connectionRefused) eq_refl Hh eq_refl).
  - exact (C10_UninstallRelease_reads_response
             fakeManager
             (start (storeUninstalling (Some uninstalledResponse, None)))
             [Some (revision 1 "deployed" "M1")] _ _
             (Some uninstalledResponse) None eq_refl Hh eq_refl).
Defined.


(** * Further properties of the manager *)

Section Runs.

Context {W Object Chart Values JValue : Type}.

Local Abbreviation manager' := (@manager W Object Chart Values).
Local Abbreviation state := (St W Object).

(** ** What a run issues *)

Lemma issues_ret {A : Type} (P : Call Object -> bool) (a : A) :
  issues (W := W) P (ret a).
Proof. intros s; exists []; simpl; now rewrite app_nil_r. Qed.

Lemma issues_panic {A : Type} (P : Call Object -> bool) :
  issues P (@panic W Object A).
Proof. intros s; exists []; simpl; now rewrite app_nil_r. Qed.

Lemma issues_deref {A : Type} (P : Call Object -> bool) (p : option A) :
  issues P (@deref W Object A p).
Proof. destruct p; [apply issues_ret | apply issues_panic]. Qed.

Lemma issues_call {R : Type} (P : Call Object -> bool) (c : Call Object)
    (f : W -> R * W) :
  P c = true -> issues P (call c f).
Proof.
  intros Hc s; exists [c]; unfold call; destruct (f (world s)); simpl.
  split; [reflexivity | now constructor].
Qed.

Lemma issues_bind {A B : Type} (P : Call Object -> bool)
    (c : M W Object A) (k : A -> M W Object B) :
  issues P c -> (forall a, issues P (k a)) -> issues P (bind c k).
Proof.
  intros Hc Hk s; unfold bind.
  destruct (Hc s) as (l & Hl & Hall); destruct (c s) as [[a|] s1]; simpl in *.
  - destruct (Hk a s1) as (l' & Hl' & Hall'); exists (l ++ l')%list.
    split; [now rewrite Hl', Hl, app_assoc | now apply Forall_app].
  - now exists l.
Qed.

Lemma issues_cleanup (P : Call Object -> bool) (st : @Storage W)
    (releases : list (option rpb.Release)) :
  (forall name version, P (CallDelete name version) = true) ->
  issues P (cleanup st releases).
Proof.
  intros HP. induction releases as [|p rest IH]; simpl; [apply issues_ret|].
  apply issues_bind; [apply issues_deref|]; intros rel.
  destruct (stale rel); [|exact IH].
  apply issues_bind; [now apply issues_call|]; intros [x err].
  destruct (notNilAndNotNotFound err); [apply issues_ret | exact IH].
Qed.

(** X1.  Whatever the collaborators answer, the calls a pass of [Sync]
    issues are [History] and [Deployed] for the release of the manager,
    [Delete], and a dry run of the upgrade for that release in the
    namespace of the manager: no install, no upgrade that is not a dry run,
    no rollback, no uninstall, no call to the cluster. *)
Theorem Sync_issues_only_reads_deletes_and_dry_runs (m : manager') :
  issues (isSyncCall (releaseName m) (namespace m)) (Sync m).
Proof.
  set (P := isSyncCall (Object := Object) (releaseName m) (namespace m)).
  assert (Hdep : issues P (Sync_deployed m)).
  { unfold Sync_deployed, getDeployedRelease, getCandidateRelease.
    apply issues_bind.
    - apply issues_bind.
      + apply issues_call. unfold P; simpl. apply String.eqb_refl.
      + intros [x [e|]]; [destruct (strings_Contains _ _)|]; apply issues_ret.
    - intros [d err].
      destruct (errors_Is_ErrReleaseNotFound err); [apply issues_ret|].
      destruct err; [apply issues_ret|].
      apply issues_bind.
      + apply issues_call. unfold P; simpl. now rewrite !String.eqb_refl.
      + intros [c [e|]]; [apply issues_ret|].
        apply issues_bind; [apply issues_deref|]; intros d'.
        apply issues_bind; [apply issues_deref|]; intros c'.
        destruct (negb _); apply issues_ret. }
  unfold Sync. apply issues_bind.
  - apply issues_call. unfold P; simpl. apply String.eqb_refl.
  - intros [releases err].
    destruct (notNilAndNotNotFound err); [apply issues_ret|].
    unfold Sync_cleanup. apply issues_bind.
    + now apply issues_cleanup.
    + intros [e|]; [apply issues_ret | exact Hdep].
Qed.

(** ** The loop of Sync *)

Lemma In_staleDeletes (releases : list (option rpb.Release)) (c : Call Object) :
  In c (staleDeletes releases) ->
  exists rel,
    In (Some rel) releases /\ stale rel = true /\
    c = CallDelete (rpb.Name rel) (rpb.Version rel).
Proof.
  induction releases as [|[rel|] rest IH]; simpl; try contradiction.
  destruct (stale rel) eqn:E.
  - intros [<-|H]; [now exists rel; auto|].
    destruct (IH H) as (r & Hin & Hr); exists r; auto.
  - intros H. destruct (IH H) as (r & Hin & Hr); exists r; auto.
Qed.

(** X2.  The loop of [Sync] issues [Delete] calls only, in the order of
    the history and one for each revision that has an [Info] with a status
    other than "deployed": what it has issued when it stops is a prefix of
    that sequence, and the whole of it when the loop runs to its end.  A
    revision that is deployed, or has no [Info], is never deleted. *)
Theorem cleanup_deletes_stale_revisions_in_order (st : @Storage W)
    (releases : list (option rpb.Release)) (s s' : state)
    (r : outcome (option error)) :
  cleanup st releases s = (r, s') ->
  exists done rest : list (Call Object),
    calls s' = (calls s ++ done)%list /\
    staleDeletes releases = (done ++ rest)%list /\
    (r = Returned None -> rest = []) /\
    (forall c, In c done ->
       exists rel, In (Some rel) releases /\ stale rel = true /\
                   c = CallDelete (rpb.Name rel) (rpb.Version rel)).
Proof.
  intros H.
  assert (Hmain : exists done rest : list (Call Object),
            calls s' = (calls s ++ done)%list /\
            staleDeletes releases = (done ++ rest)%list /\
            (r = Returned None -> rest = [])).
  { revert s H; induction releases as [|p tl IH]; intros s H; simpl in H.
    - inversion H; subst. exists [], []. now rewrite app_nil_r.
    - destruct p as [rel|]; cbn [deref] in H.
      + rewrite bind_ret in H. cbn [staleDeletes].
        destruct (stale rel); [|now apply IH].
        unfold bind, call in H.
        destruct (Delete st (rpb.Name rel) (rpb.Version rel) (world s))
          as [[x err] w'].
        destruct (notNilAndNotNotFound err).
        * inversion H; subst. cbn [calls].
          exists [CallDelete (rpb.Name rel) (rpb.Version rel)], (staleDeletes tl).
          repeat split. discriminate.
        * destruct (IH _ H) as (done & rest & Hl & Hs & Hr). cbn [calls] in Hl.
          exists (CallDelete (rpb.Name rel) (rpb.Version rel) :: done), rest.
          repeat split; [now rewrite Hl, <- app_assoc | now rewrite Hs | exact Hr].
      + inversion H; subst. exists [], []. rewrite app_nil_r.
        repeat split; intros; try discriminate; auto. }
  destruct Hmain as (done & rest & Hl & Hs & Hr).
  exists done, rest. repeat split; try assumption.
  intros c Hc. apply In_staleDeletes. rewrite Hs. apply in_or_app; now left.
Qed.

(** ** The ways a pass of Sync ends *)

(** X3.  When [History] answers with an error whose message does not
    contain "not found", [Sync] returns that error, wrapped, with the
    manager as it was, and issues no other call: the revisions [History]
    may have returned with the error are not looked at. *)
Theorem Sync_history_error_ends_the_pass (m : manager') (s : state)
    (releases : list (option rpb.Release)) (e : error) (w1 : W) :
  History (storageBackend m) (releaseName m) (world s)
    = ((releases, Some e), w1) ->
  notFoundErr (Some e) = false ->
  Sync m s =
    (Returned (m, Some (fmt_Errorf_w "failed to retrieve release history: " e)),
     mkSt w1 (calls s ++ [CallHistory (releaseName m)])).
Proof.
  intros H1 He. unfold Sync.
  rewrite (bind_call _ _ _ s _ _ H1); cbv beta iota.
  now rewrite (notNilAndNotNotFound_Some e He).
Qed.

(** X4.  When [Deployed] answers with an error that neither says "has no
    deployed releases" nor is [driver.ErrReleaseNotFound], [Sync] returns
    that error, wrapped, without a dry run; the manager is as it was, and
    a release [Deployed] may have returned with the error is dropped. *)
Theorem Sync_deployed_error_ends_the_pass (m : manager') (s s2 : state)
    (releases : list (option rpb.Release)) (herr : option error)
    (w1 w3 : W) (x : option rpb.Release) (e : error) :
  History (storageBackend m) (releaseName m) (world s) = ((releases, herr), w1) ->
  notNilAndNotNotFound herr = None ->
  cleanup (storageBackend m) releases
          (mkSt w1 (calls s ++ [CallHistory (releaseName m)])) = (Returned None, s2) ->
  Deployed (storageBackend m) (releaseName m) (world s2) = ((x, Some e), w3) ->
  strings_Contains (Error e) "has no deployed releases" = false ->
  Is_ErrReleaseNotFound e = false ->
  Sync m s =
    (Returned (m, Some (fmt_Errorf_w "failed to get deployed release: " e)),
     mkSt w3 (calls s2 ++ [CallDeployed (releaseName m)])).
Proof.
  intros H1 H2 H3 H4 Hmsg His.
  rewrite (Sync_reaches_deployed m s s2 releases herr w1 H1 H2 H3).
  unfold Sync_deployed, getDeployedRelease.
  unfold bind at 1. rewrite (bind_call _ _ _ s2 _ _ H4); cbv beta iota.
  rewrite Hmsg. unfold ret at 1. cbn [errors_Is_ErrReleaseNotFound].
  now rewrite His.
Qed.

(** X5.  When the dry run fails, [Sync] returns its error, wrapped, but
    the manager has already been changed: it reports the release as
    installed and holds what [Deployed] returned, also when that is nil.
    [isUpdateRequired] is as it was. *)
Theorem Sync_dry_run_error_keeps_installed (m : manager') (s s2 : state)
    (releases : list (option rpb.Release)) (herr : option error)
    (w1 w3 w4 : W) (d c : option rpb.Release) (e : error) :
  History (storageBackend m) (releaseName m) (world s) = ((releases, herr), w1) ->
  notNilAndNotNotFound herr = None ->
  cleanup (storageBackend m) releases
          (mkSt w1 (calls s ++ [CallHistory (releaseName m)])) = (Returned None, s2) ->
  Deployed (storageBackend m) (releaseName m) (world s2) = ((d, None), w3) ->
  UpgradeRun (actionConfig m) (namespace m) true (releaseName m)
             (chart m) (values m) w3 = ((c, Some e), w4) ->
  exists m' : manager',
    Sync m s =
      (Returned (m', Some (fmt_Errorf_w "failed to get candidate release: " e)),
       mkSt w4 (calls s2 ++ [CallDeployed (releaseName m);
                             CallUpgrade (namespace m) true (releaseName m)])) /\
    isInstalled m' = true /\
    deployedRelease m' = d /\
    isUpdateRequired m' = isUpdateRequired m.
Proof.
  intros H1 H2 H3 H4 H5.
  rewrite (Sync_reaches_deployed m s s2 releases herr w1 H1 H2 H3).
  unfold Sync_deployed, getDeployedRelease, getCandidateRelease.
  unfold bind at 1. rewrite (bind_call _ _ _ s2 _ _ H4); cbv beta iota.
  unfold ret at 1. cbn [errors_Is_ErrReleaseNotFound].
  cbn [set_isInstalled set_deployedRelease actionConfig namespace releaseName
       chart values].
  erewrite bind_call by (cbn [world]; exact H5). cbv beta iota.
  cbn [ret calls]. rewrite <- app_assoc; cbn [app].
  eexists; split; [reflexivity|]. now repeat split.
Qed.

(** ** The manager after a pass of Sync *)

(** A pass that returns leaves the manager as it was, or with the answer
    of [Deployed] recorded. *)
Lemma Sync_deployed_cases (m m' : manager') (s s' : state) (err : option error) :
  Sync_deployed m s = (Returned (m', err), s') ->
  m' = m \/
  (exists d, err <> None /\
             m' = set_isInstalled (set_deployedRelease m d) true) \/
  (exists d, err = None /\
             (m' = set_isInstalled (set_deployedRelease m (Some d)) true \/
              m' = set_isUpdateRequired
                     (set_isInstalled (set_deployedRelease m (Some d)) true) true)).
Proof.
  unfold Sync_deployed, getDeployedRelease, getCandidateRelease, bind, call.
  destruct (Deployed _ _ _) as [[d [e|]] w3]; cbn [calls world].
  - destruct (strings_Contains _ _); cbn [ret errors_Is_ErrReleaseNotFound
                                          Is_ErrReleaseNotFound].
    + intros H; inversion H; now left.
    + destruct (Is_ErrReleaseNotFound e); intros H; inversion H; now left.
  - cbn [ret errors_Is_ErrReleaseNotFound].
    destruct (UpgradeRun _ _ _ _ _ _ _) as [[c [e|]] w4].
    + intros H; inversion H. right; left. exists d. split; [discriminate|reflexivity].
    + destruct d as [d|]; cbn [deref ret panic]; [|discriminate].
      destruct c as [c|]; cbn [deref ret panic]; [|discriminate].
      destruct (negb _); intros H; inversion H; right; right; exists d; auto.
Qed.

Lemma Sync_cases (m m' : manager') (s s' : state) (err : option error) :
  Sync m s = (Returned (m', err), s') ->
  m' = m \/
  (exists d, err <> None /\
             m' = set_isInstalled (set_deployedRelease m d) true) \/
  (exists d, err = None /\
             (m' = set_isInstalled (set_deployedRelease m (Some d)) true \/
              m' = set_isUpdateRequired
                     (set_isInstalled (set_deployedRelease m (Some d)) true) true)).
Proof.
  unfold Sync, bind at 1, call.
  destruct (History _ _ _) as [[releases herr] w1].
  destruct (notNilAndNotNotFound herr).
  - intros H; inversion H; now left.
  - unfold Sync_cleanup, bind.
    destruct (cleanup _ _ _) as [[[e|]|] s1]; [| |discriminate].
    + intros H; inversion H; now left.
    + apply Sync_deployed_cases.
Qed.

(** X6.  A pass of [Sync] that returns, with or without an error, changes
    nothing of the manager but [isInstalled], [isUpdateRequired] and
    [deployedRelease], and lowers neither flag: a flag that was true before
    the pass is true after it. *)
Theorem Sync_only_raises_flags (m m' : manager') (s s' : state)
    (err : option error) :
  Sync m s = (Returned (m', err), s') -> raisedFrom m m'.
Proof.
  intros H.
  destruct (Sync_cases m m' s s' err H)
    as [->|[(d & _ & ->)|(d & _ & [->| ->])]];
    unfold raisedFrom; cbn; repeat split; auto.
Qed.

(** X7.  [Sync] followed by [ReconcileRelease].  When a pass of [Sync]
    returns nil on a manager that held a release if it reported one as
    installed, and the manager then reports the release as installed, it
    holds a deployed release, and [ReconcileRelease] reconciles the
    manifest of that release and returns the release with the outcome. *)
Theorem Sync_then_ReconcileRelease (m m' : manager') (s s' : state) :
  Sync m s = (Returned (m', None), s') ->
  holdsDeployed m ->
  isInstalled m' = true ->
  exists d,
    deployedRelease m' = Some d /\
    forall (js : @JSON Object JValue) (reasonNotFound : error -> bool)
           (s2 : state),
      ReconcileRelease js reasonNotFound m' s2 =
        bind (reconcileRelease js reasonNotFound (kubeClient m) (rpb.Manifest d))
             (fun err => ret (Some d, err)) s2.
Proof.
  intros H Hinv Hinst.
  assert (Hd : exists d, deployedRelease m' = Some d /\ kubeClient m' = kubeClient m).
  { destruct (Sync_cases m m' s s' None H)
      as [->|[(d & Hne & _)|(d & _ & [->| ->])]].
    - destruct (deployedRelease m) as [d|] eqn:E; [now exists d|].
      now elim (Hinv Hinst).
    - now elim Hne.
    - now exists d.
    - now exists d. }
  destruct Hd as (d & Hd & Hk). exists d. split; [exact Hd|].
  intros js rnf s2. unfold ReconcileRelease. rewrite Hd, Hk. reflexivity.
Qed.

(** ** InstallRelease and UpdateRelease without a partial release *)

(** X8.  When the install does not return a release together with an
    error, [InstallRelease] issues the install and nothing else: it returns
    the release when there is no error, and the error, wrapped, with a nil
    release otherwise.  No uninstall is attempted. *)
Theorem InstallRelease_without_partial_release (m : manager') (s : state)
    (r : option rpb.Release) (err : option error) (w1 : W) :
  InstallRun (actionConfig m) (releaseName m) (namespace m) (chart m) (values m)
             (world s) = ((r, err), w1) ->
  r = None \/ err = None ->
  InstallRelease m s =
    (Returned match err with
              | Some e => (None, Some (fmt_Errorf_w "failed to install release: " e))
              | None => (r, None)
              end,
     mkSt w1 (calls s ++ [CallInstall (releaseName m) (namespace m)])).
Proof.
  intros H1 Hor. unfold InstallRelease.
  rewrite (bind_call _ _ _ s _ _ H1); cbv beta iota.
  destruct err as [e|]; [|reflexivity].
  destruct Hor as [->|Hor]; [reflexivity | discriminate].
Qed.

(** X9.  Whenever the install returns an error, [InstallRelease] returns
    a nil release and an error whose message contains the message of the
    install error, whatever the install returned with it and whatever the
    uninstall answers. *)
Theorem InstallRelease_error_names_the_install_error (m : manager')
    (s : state) (x : option rpb.Release) (e : error) (w1 : W) :
  InstallRun (actionConfig m) (releaseName m) (namespace m) (chart m) (values m)
             (world s) = ((x, Some e), w1) ->
  exists err s',
    InstallRelease m s = (Returned (None, Some err), s') /\
    strings_Contains (Error err) (Error e) = true.
Proof.
  intros H1. unfold InstallRelease.
  rewrite (bind_call _ _ _ s _ _ H1); cbv beta iota.
  assert (Hplain : strings_Contains
                     (Error (fmt_Errorf_w "failed to install release: " e))
                     (Error e) = true).
  { unfold fmt_Errorf_w; cbn [Error].
    apply strings_Contains_app_r, strings_Contains_refl. }
  destruct x as [rel|]; [|do 2 eexists; split; [reflexivity | exact Hplain]].
  unfold bind, call; cbn [world].
  destruct (UninstallRun _ _ _) as [[r uerr] w2].
  destruct (notNilAndNotNotFound uerr) as [ue|].
  - do 2 eexists; split; [reflexivity|]. cbn [Error].
    apply (combined_message_names_both _ _ e ue).
  - do 2 eexists; split; [reflexivity | exact Hplain].
Qed.

(** X10.  When the upgrade does not return a release together with an
    error, [UpdateRelease] issues the upgrade, not as a dry run, and
    nothing else: without an error it returns the release the manager
    holds as deployed and the release the upgrade returned; with an error
    it returns two nil releases and the error, wrapped.  No rollback is
    attempted. *)
Theorem UpdateRelease_without_partial_release (m : manager') (s : state)
    (r : option rpb.Release) (err : option error) (w1 : W) :
  UpgradeRun (actionConfig m) (namespace m) false (releaseName m)
             (chart m) (values m) (world s) = ((r, err), w1) ->
  r = None \/ err = None ->
  UpdateRelease m s =
    (Returned match err with
              | Some e =>
                  (None, None, Some (fmt_Errorf_w "failed to update release: " e))
              | None => (deployedRelease m, r, None)
              end,
     mkSt w1 (calls s ++ [CallUpgrade (namespace m) false (releaseName m)])).
Proof.
  intros H1 Hor. unfold UpdateRelease.
  rewrite (bind_call _ _ _ s _ _ H1); cbv beta iota.
  destruct err as [e|]; [|reflexivity].
  destruct Hor as [->|Hor]; [reflexivity | discriminate].
Qed.

(** X11.  Whenever the upgrade returns an error, [UpdateRelease] returns
    two nil releases and an error whose message contains the message of
    the upgrade error, whatever the upgrade returned with it and whatever
    the rollback answers. *)
Theorem UpdateRelease_error_names_the_upgrade_error (m : manager')
    (s : state) (x : option rpb.Release) (e : error) (w1 : W) :
  UpgradeRun (actionConfig m) (namespace m) false (releaseName m)
             (chart m) (values m) (world s) = ((x, Some e), w1) ->
  exists err s',
    UpdateRelease m s = (Returned (None, None, Some err), s') /\
    strings_Contains (Error err) (Error e) = true.
Proof.
  intros H1. unfold UpdateRelease.
  rewrite (bind_call _ _ _ s _ _ H1); cbv beta iota.
  assert (Hplain : strings_Contains
                     (Error (fmt_Errorf_w "failed to update release: " e))
                     (Error e) = true).
  { unfold fmt_Errorf_w; cbn [Error].
    apply strings_Contains_app_r, strings_Contains_refl. }
  destruct x as [rel|]; [|do 2 eexists; split; [reflexivity | exact Hplain]].
  unfold bind, call; cbn [world].
  destruct (RollbackRun _ _ _ _) as [[re|] w2].
  - do 2 eexists; split; [reflexivity|]. cbn [Error].
    apply (combined_message_names_both _ _ e re).
  - do 2 eexists; split; [reflexivity | exact Hplain].
Qed.

(** X12.  The three lifecycle methods keep to their own calls, whatever
    the collaborators answer.  [InstallRelease] issues only the install and
    the uninstall of its release; [UpdateRelease] only an upgrade that is
    not a dry run and a forced rollback; [UninstallRelease] only the
    history and the uninstall.  None of them deletes a revision or calls
    the cluster. *)
Theorem lifecycle_methods_issue_only_their_calls (m : manager') :
  issues (isInstallReleaseCall (releaseName m) (namespace m)) (InstallRelease m) /\
  issues (isUpdateReleaseCall (releaseName m) (namespace m)) (UpdateRelease m) /\
  issues (isUninstallReleaseCall (releaseName m)) (UninstallRelease m).
Proof.
  split; [|split].
  - unfold InstallRelease. apply issues_bind.
    + apply issues_call; simpl. now rewrite !String.eqb_refl.
    + intros [r [e|]]; [|apply issues_ret].
      destruct r; [|apply issues_ret].
      apply issues_bind.
      * apply issues_call; simpl. apply String.eqb_refl.
      * intros [x uerr]. destruct (notNilAndNotNotFound uerr); apply issues_ret.
  - unfold UpdateRelease. apply issues_bind.
    + apply issues_call; simpl. now rewrite !String.eqb_refl.
    + intros [r [e|]]; [|apply issues_ret].
      destruct r; [|apply issues_ret].
      apply issues_bind.
      * apply issues_call; simpl. apply String.eqb_refl.
      * intros [re|]; apply issues_ret.
  - unfold UninstallRelease. apply issues_bind.
    + apply issues_call; simpl. apply String.eqb_refl.
    + intros [h [e|]]; [apply issues_ret|].
      destruct (length h =? 0)%nat; [apply issues_ret|].
      apply issues_bind.
      * apply issues_call; simpl. apply String.eqb_refl.
      * intros [resp err]. apply issues_bind; [apply issues_deref|].
        intros r. apply issues_ret.
Qed.

(** ** UninstallRelease *)

(** X13.  When [History] answers with an error, [UninstallRelease] returns
    it, wrapped, with a nil release, and does not run the uninstall.
    Unlike [Sync], it makes no exception for an error whose message
    contains "not found", and it does not look at the revisions returned
    with the error.  The wrapped error is [driver.ErrReleaseNotFound] for
    [errors.Is] exactly when the error of [History] is. *)
Theorem UninstallRelease_history_error (m : manager') (s : state)
    (h : list (option rpb.Release)) (e : error) (w1 : W) :
  History (storageBackend m) (releaseName m) (world s) = ((h, Some e), w1) ->
  UninstallRelease m s =
    (Returned (None, Some (fmt_Errorf_w "failed to get release history: " e)),
     mkSt w1 (calls s ++ [CallHistory (releaseName m)])) /\
  errors_Is_ErrReleaseNotFound
    (Some (fmt_Errorf_w "failed to get release history: " e))
  = Is_ErrReleaseNotFound e.
Proof.
  intros H1. split; [|reflexivity]. unfold UninstallRelease.
  now rewrite (bind_call _ _ _ s _ _ H1).
Qed.

End Runs.

Section Reconciling.

Context {W Object Chart Values JValue : Type}.

Variable js : @JSON Object JValue.
Variable reasonNotFound : error -> bool.

Local Abbreviation manager' := (@manager W Object Chart Values).
Local Abbreviation state := (St W Object).
Local Abbreviation info := (@ResourceInfo W Object).

(** ** generatePatch *)

Lemma patchOps_nil (ops : list (jsonpatch.JsonPatchOperation JValue)) :
  patchOps ops = [] ->
  Forall (fun op => jsonpatch.Operation op = "remove") ops.
Proof.
  induction ops as [|o ops IH]; simpl; [constructor|].
  destruct (String.eqb_spec (jsonpatch.Operation o) "remove") as [E|E]; simpl.
  - intros H; constructor; auto.
  - discriminate.
Qed.

Lemma patchOps_keeps_all (ops : list (jsonpatch.JsonPatchOperation JValue)) :
  Forall (fun op => jsonpatch.Operation op <> "remove") ops ->
  patchOps ops = ops.
Proof.
  induction 1 as [|o ops Ho _ IH]; simpl; [reflexivity|].
  destruct (String.eqb_spec (jsonpatch.Operation o) "remove") as [E|E];
    [contradiction|]. simpl. now rewrite IH.
Qed.

(** X14.  [generatePatch] returns a nil patch without an error exactly
    when both objects are encoded, the diff is computed, and every
    operation of the diff is a "remove": the nil patch never hides an
    operation that adds or replaces a field. *)
Theorem generatePatch_nil_iff_only_removals (existing expected : Object) :
  generatePatch js existing expected = (None, None) <->
  onlyRemovals js existing expected.
Proof.
  split; [|apply generatePatch_onlyRemovals].
  unfold generatePatch, onlyRemovals.
  destruct (json_Marshal js existing) as [a|]; [|discriminate].
  destruct (json_Marshal js expected) as [b|]; [|discriminate].
  destruct (jsonpatch_CreatePatch js a b) as [ops [e|]] eqn:Eops; [discriminate|].
  destruct (patchOps ops) as [|o kept] eqn:E; cbn [length Nat.eqb].
  - intros _. exists a, b, ops.
    split; [reflexivity|]. split; [reflexivity|]. split; [exact Eops|].
    now apply patchOps_nil.
  - destruct (json_Marshal_ops js (o :: kept)); discriminate.
Qed.

(** X15.  When the diff is not empty and holds no "remove" operation,
    [generatePatch] returns the encoding of the whole diff, in the order
    of the diff, or the error of encoding it. *)
Theorem generatePatch_encodes_a_diff_without_removals
    (existing expected : Object) (a b : list byte)
    (ops : list (jsonpatch.JsonPatchOperation JValue)) :
  json_Marshal js existing = inl a ->
  json_Marshal js expected = inl b ->
  jsonpatch_CreatePatch js a b = (ops, None) ->
  ops <> [] ->
  Forall (fun op => jsonpatch.Operation op <> "remove") ops ->
  generatePatch js existing expected =
    match json_Marshal_ops js ops with
    | inl patch => (Some patch, None)
    | inr e => (None, Some e)
    end.
Proof.
  intros Ha Hb Hops Hne Hall. unfold generatePatch.
  rewrite Ha, Hb, Hops, (patchOps_keeps_all ops Hall).
  destruct ops; [contradiction | reflexivity].
Qed.

(** X16.  [generatePatch] never returns a patch together with an error,
    and an error it returns is the error of one of the library functions,
    as that function returned it: the encoding of one of the two objects,
    the diff, or the encoding of the operations kept. *)
Theorem generatePatch_error_comes_from_a_library_function
    (existing expected : Object) (p : option (list byte)) (e : error) :
  generatePatch js existing expected = (p, Some e) ->
  p = None /\
  (json_Marshal js existing = inr e \/
   json_Marshal js expected = inr e \/
   exists a b ops,
     json_Marshal js existing = inl a /\
     json_Marshal js expected = inl b /\
     (jsonpatch_CreatePatch js a b = (ops, Some e) \/
      (jsonpatch_CreatePatch js a b = (ops, None) /\
       json_Marshal_ops js (patchOps ops) = inr e))).
Proof.
  unfold generatePatch.
  destruct (json_Marshal js existing) as [a|e1] eqn:Ea;
    [|intros H; inversion H; auto].
  destruct (json_Marshal js expected) as [b|e2] eqn:Eb;
    [|intros H; inversion H; auto].
  destruct (jsonpatch_CreatePatch js a b) as [ops [e3|]] eqn:Eops.
  - intros H; inversion H; subst. split; [reflexivity|].
    right; right. exists a, b, ops. auto.
  - destruct (length (patchOps ops) =? 0)%nat; [discriminate|].
    destruct (json_Marshal_ops js (patchOps ops)) as [patch|e4] eqn:Em;
      [discriminate|].
    intros H; inversion H; subst. split; [reflexivity|].
    right; right. exists a, b, ops. auto.
Qed.

(** ** The visitor, object by object *)

(** X17.  An object that is not found live is created, with the expected
    object, in its namespace; no patch is computed or applied.  When the
    creation fails, the visitor returns a new error whose message contains
    the message of the creation error but which does not wrap it: for
    [errors.Is] it is never [driver.ErrReleaseNotFound]. *)
Theorem visitor_creates_a_missing_object (i : info) (s : state)
    (existing x : Object) (ge : error) (cerr : option error) (w1 w2 : W) :
  Get (Client i) (RNamespace i) (RName i) false (world s)
    = ((existing, Some ge), w1) ->
  reasonNotFound ge = true ->
  Create (Client i) (RNamespace i) true (RObject i) w1 = ((x, cerr), w2) ->
  visitor js reasonNotFound (Some i) None s =
    (Returned match cerr with
              | Some ce => Some (errorString ("create error: " ++ Error ce))
              | None => None
              end,
     mkSt w2 (calls s ++ [CallGet (RNamespace i) (RName i);
                          CallCreate (RNamespace i) (RObject i)])) /\
  (forall ce, cerr = Some ce ->
     strings_Contains (Error (errorString ("create error: " ++ Error ce)))
                      (Error ce) = true /\
     errors_Is_ErrReleaseNotFound
       (Some (errorString ("create error: " ++ Error ce))) = false).
Proof.
  intros H1 Hnf H2. split.
  - unfold visitor. cbn [deref]. rewrite bind_ret.
    rewrite (bind_call _ _ _ s _ _ H1); cbv beta iota.
    cbn [apierrors_IsNotFound]. rewrite Hnf.
    erewrite bind_call by (cbn [world]; exact H2). cbv beta iota.
    cbn [calls]. rewrite <- app_assoc; cbn [app].
    destruct cerr; reflexivity.
  - intros ce _. split; [|reflexivity]. cbn [Error].
    apply strings_Contains_app_r, strings_Contains_refl.
Qed.

(** X18.  When the fetch of the live object fails with an error that is
    not a not-found error of the API, the visitor returns that error as it
    is, not wrapped, and issues nothing after the fetch. *)
Theorem visitor_returns_a_fetch_error (i : info) (s : state)
    (existing : Object) (ge : error) (w1 : W) :
  Get (Client i) (RNamespace i) (RName i) false (world s)
    = ((existing, Some ge), w1) ->
  reasonNotFound ge = false ->
  visitor js reasonNotFound (Some i) None s =
    (Returned (Some ge), mkSt w1 (calls s ++ [CallGet (RNamespace i) (RName i)])).
Proof.
  intros H1 Hnf. unfold visitor. cbn [deref]. rewrite bind_ret.
  rewrite (bind_call _ _ _ s _ _ H1); cbv beta iota.
  cbn [apierrors_IsNotFound]. now rewrite Hnf.
Qed.

(** X19.  For a live object with a patch that is not nil, the visitor
    issues one [Patch] of type JSON patch with exactly the bytes
    [generatePatch] returned, for the name and namespace of the expected
    object, and returns the error of the patch, wrapped, or nil. *)
Theorem visitor_patches_a_drifted_object (i : info) (s : state)
    (existing x : Object) (patch : list byte) (perr : option error)
    (w1 w2 : W) :
  Get (Client i) (RNamespace i) (RName i) false (world s)
    = ((existing, None), w1) ->
  generatePatch js existing (RObject i) = (Some patch, None) ->
  Patch (Client i) (RNamespace i) (RName i) JSONPatchType patch w1
    = ((x, perr), w2) ->
  visitor js reasonNotFound (Some i) None s =
    (Returned match perr with
              | Some pe => Some (fmt_Errorf_w "patch error: " pe)
              | None => None
              end,
     mkSt w2 (calls s ++ [CallGet (RNamespace i) (RName i);
                          CallPatch (RNamespace i) (RName i) patch])).
Proof.
  intros H1 Hp H2. unfold visitor. cbn [deref]. rewrite bind_ret.
  rewrite (bind_call _ _ _ s _ _ H1); cbv beta iota.
  cbn [apierrors_IsNotFound]. rewrite Hp.
  erewrite bind_call by (cbn [world]; exact H2). cbv beta iota.
  cbn [calls]. rewrite <- app_assoc; cbn [app].
  destruct perr; reflexivity.
Qed.

(** X20.  When [generatePatch] fails for a live object, the visitor
    returns its error wrapped as a failure "to marshal JSON patch", also
    when it is the diff that failed, and issues no [Patch]. *)
Theorem visitor_returns_a_patch_computation_error (i : info) (s : state)
    (existing : Object) (p : option (list byte)) (e : error) (w1 : W) :
  Get (Client i) (RNamespace i) (RName i) false (world s)
    = ((existing, None), w1) ->
  generatePatch js existing (RObject i) = (p, Some e) ->
  visitor js reasonNotFound (Some i) None s =
    (Returned (Some (fmt_Errorf_w "failed to marshal JSON patch: " e)),
     mkSt w1 (calls s ++ [CallGet (RNamespace i) (RName i)])).
Proof.
  intros H1 Hp. unfold visitor. cbn [deref]. rewrite bind_ret.
  rewrite (bind_call _ _ _ s _ _ H1); cbv beta iota.
  cbn [apierrors_IsNotFound]. rewrite Hp. destruct p; reflexivity.
Qed.

(** ** The walk *)

Lemma Visit_app (pre post : list (option info))
    (fn : option info -> option error -> M W Object (option error))
    (s s2 : state) :
  Visit pre fn s = (Returned None, s2) ->
  Visit (pre ++ post) fn s = Visit post fn s2.
Proof.
  revert s; induction pre as [|p pre IH]; intros s H; simpl in *.
  - now inversion H.
  - unfold bind in *. destruct (fn p None s) as [[[e|]|] s1];
      try discriminate. now apply IH.
Qed.

(** X21.  The walk stops at the first object for which the visitor
    returns an error: [reconcileRelease] returns that error and leaves the
    log and the world as the visitor left them, whatever objects follow in
    the manifest.  Nothing is fetched, created or patched for them. *)
Theorem reconcileRelease_stops_at_the_first_error (kc : @KubeInterface W Object)
    (manifest : string) (s s2 s3 : state) (w1 : W)
    (pre post : list (option info)) (i : option info) (e : error) :
  Build kc manifest false (world s) = (((pre ++ i :: post)%list, None), w1) ->
  Visit pre (visitor js reasonNotFound)
        (mkSt w1 (calls s ++ [CallBuild manifest false])) = (Returned None, s2) ->
  visitor js reasonNotFound i None s2 = (Returned (Some e), s3) ->
  reconcileRelease js reasonNotFound kc manifest s = (Returned (Some e), s3).
Proof.
  intros H1 H2 H3. unfold reconcileRelease.
  rewrite (bind_call _ _ _ s _ _ H1); cbv beta iota.
  rewrite (Visit_app pre (i :: post) _ _ s2 H2).
  cbn [Visit]. unfold bind. now rewrite H3.
Qed.

(** ** ReconcileRelease *)

(** X22.  When [Build] fails on the manifest of the deployed release,
    [ReconcileRelease] returns the deployed release and the error of
    [Build], not wrapped, and fetches nothing, whatever [Build] returned
    with the error. *)
Theorem ReconcileRelease_Build_error (m : manager') (s : state)
    (d : rpb.Release) (infos : list (option info)) (e : error) (w1 : W) :
  deployedRelease m = Some d ->
  Build (kubeClient m) (rpb.Manifest d) false (world s)
    = ((infos, Some e), w1) ->
  ReconcileRelease js reasonNotFound m s =
    (Returned (Some d, Some e),
     mkSt w1 (calls s ++ [CallBuild (rpb.Manifest d) false])).
Proof.
  intros Hd H1. unfold ReconcileRelease. rewrite Hd. cbn [deref].
  rewrite bind_ret. unfold bind at 1. unfold reconcileRelease.
  now rewrite (bind_call _ _ _ s _ _ H1).
Qed.

(** X23.  On a manager that holds no deployed release, [ReconcileRelease]
    panics before any call.  Whenever it returns, with or without an
    error, the release it returns is the deployed release the manager
    holds, and it is not nil. *)
Theorem ReconcileRelease_needs_a_deployed_release (m : manager') :
  (deployedRelease m = None ->
   forall s, ReconcileRelease js reasonNotFound m s = (Panicked, s)) /\
  (forall s s' r err,
      ReconcileRelease js reasonNotFound m s = (Returned (r, err), s') ->
      r = deployedRelease m /\ r <> None).
Proof.
  split.
  - intros Hd s. unfold ReconcileRelease. now rewrite Hd.
  - intros s s' r err. unfold ReconcileRelease.
    destruct (deployedRelease m) as [d|]; cbn [deref]; [|discriminate].
    rewrite bind_ret. unfold bind.
    destruct (reconcileRelease _ _ _ _ s) as [[e|] s1]; [|discriminate].
    intros H; inversion H; subst. split; [reflexivity | discriminate].
Qed.

(** X24.  Whatever the cluster answers, [ReconcileRelease] issues calls to
    the cluster only ([Build], [Get], [Create], [Patch]): it never reads
    or changes the release store and never runs a Helm action. *)
Theorem ReconcileRelease_issues_only_cluster_calls (m : manager') :
  issues isClusterCall (ReconcileRelease js reasonNotFound m).
Proof.
  assert (Hvisitor : forall (i : option info) (err : option error),
             issues isClusterCall (visitor js reasonNotFound i err)).
  { intros i err. unfold visitor. destruct err; [apply issues_ret|].
    apply issues_bind; [apply issues_deref|]; intros expected.
    apply issues_bind; [now apply issues_call|]; intros [existing gerr].
    destruct (apierrors_IsNotFound reasonNotFound gerr).
    - apply issues_bind; [now apply issues_call|].
      intros [x [e|]]; apply issues_ret.
    - destruct gerr; [apply issues_ret|].
      destruct (generatePatch js existing (RObject expected)) as [[p|] [e|]];
        try apply issues_ret.
      apply issues_bind; [now apply issues_call|].
      intros [x [e|]]; apply issues_ret. }
  assert (HVisit : forall infos : list (option info),
             issues isClusterCall (Visit infos (visitor js reasonNotFound))).
  { induction infos as [|i rest IH]; cbn [Visit]; [apply issues_ret|].
    apply issues_bind; [apply (Hvisitor i None)|].
    intros [e|]; [apply issues_ret | exact IH]. }
  unfold ReconcileRelease.
  apply issues_bind; [apply issues_deref|]; intros d.
  apply issues_bind; [|intros err; apply issues_ret].
  unfold reconcileRelease.
  apply issues_bind; [now apply issues_call|].
  intros [infos [e|]]; [apply issues_ret | apply HVisit].
Qed.

End Reconciling.


(** * The further properties on the fake Helm *)

Lemma X2_witness :
  exists done rest : list (Call string),
    staleDeletes (map Some (revisions storeMixed)) = (done ++ rest)%list /\
    rest = [].
Proof.
  destruct (cleanup_deletes_stale_revisions_in_order
              fakeStorage (map Some (revisions storeMixed)) (start storeMixed)
              (mkSt (fakeStore [revision 1 "deployed" "M1"] "M1")
                    [CallDelete "demo" 2; CallDelete "demo" 3])
              (Returned None) eq_refl)
    as (done & rest & _ & Hs & Hr & _).
  exists done, rest. split; [exact Hs | now apply Hr].
Defined.

Lemma X3_witness :
  Sync (managerWith fakeConfiguration downStorage fakeKube None) (start fakeWorld)
    = (Returned (managerWith fakeConfiguration downStorage fakeKube None,
                 Some (fmt_Errorf_w "failed to retrieve release history: "
                                    connectionRefused)),
       mkSt fakeWorld [CallHistory "demo"]).
Proof.
  exact (Sync_history_error_ends_the_pass
           (managerWith fakeConfiguration downStorage fakeKube None)
           (start fakeWorld) [Some (revision 2 "failed" "M1")]
           connectionRefused fakeWorld eq_refl eq_refl).
Defined.

Lemma X4_witness :
  Sync (managerWith fakeConfiguration halfDownStorage fakeKube None)
       (start fakeWorld)
    = (Returned (managerWith fakeConfiguration halfDownStorage fakeKube None,
                 Some (fmt_Errorf_w "failed to get deployed release: "
                                    connectionRefused)),
       mkSt fakeWorld [CallHistory "demo"; CallDeployed "demo"]).
Proof.
  exact (Sync_deployed_error_ends_the_pass
           (managerWith fakeConfiguration halfDownStorage fakeKube None)
           (start fakeWorld) (mkSt fakeWorld [CallHistory "demo"])
           [] None fakeWorld fakeWorld
           (Some (revision 1 "deployed" "M1")) connectionRefused
           eq_refl eq_refl eq_refl eq_refl eq_refl eq_refl).
Defined.

Lemma X5_witness :
  exists m',
    fst (Sync (managerWith noRenderConfiguration fakeStorage fakeKube None)
              (start storeDeployed))
      = Returned (m', Some (fmt_Errorf_w "failed to get candidate release: "
                                         (errorString "render error"))) /\
    isInstalled m' = true /\
    deployedRelease m' = Some (revision 1 "deployed" "M1").
Proof.
  destruct (Sync_dry_run_error_keeps_installed
              (managerWith noRenderConfiguration fakeStorage fakeKube None)
              (start storeDeployed) (mkSt storeDeployed [CallHistory "demo"])
              [Some (revision 1 "deployed" "M1")] None
              storeDeployed storeDeployed storeDeployed
              (Some (revision 1 "deployed" "M1")) None
              (errorString "render error")
              eq_refl eq_refl eq_refl eq_refl eq_refl)
    as (m' & Hrun & Hi & Hd & _).
  exists m'. rewrite Hrun. now repeat split.
Defined.

Lemma X6_witness : raisedFrom fakeManager updatedManager.
Proof.
  exact (Sync_only_raises_flags
           fakeManager updatedManager (start storeChanged)
           (mkSt storeChanged [CallHistory "demo"; CallDeployed "demo";
                               CallUpgrade "default" true "demo"])
           None eq_refl).
Defined.

Lemma X7_witness :
  exists d, deployedRelease installedManager = Some d.
Proof.
  assert (Hinv : holdsDeployed fakeManager) by (intros H; discriminate H).
  destruct (Sync_then_ReconcileRelease (JValue := string)
              fakeManager installedManager (start storeDeployed)
              (mkSt storeDeployed [CallHistory "demo"; CallDeployed "demo";
                                   CallUpgrade "default" true "demo"])
              eq_refl Hinv eq_refl) as (d & Hd & _).
  now exists d.
Defined.

Lemma X8_witness :
  InstallRelease fakeManager (start storeSucceeding)
    = (Returned (Some (revision 1 "deployed" "M1"), None),
       mkSt storeSucceeding [CallInstall "demo" "default"]).
Proof.
  exact (InstallRelease_without_partial_release
           fakeManager (start storeSucceeding)
           (Some (revision 1 "deployed" "M1")) None storeSucceeding
           eq_refl (or_intror eq_refl)).
Defined.

Lemma X9_witness :
  exists err s',
    InstallRelease fakeManager
        (start (partialFailure None (Some connectionRefused)))
      = (Returned (None, Some err), s') /\
    strings_Contains (Error err) "timed out" = true.
Proof.
  exact (InstallRelease_error_names_the_install_error
           fakeManager (start (partialFailure None (Some connectionRefused)))
           (Some (revision 1 "failed" "M1")) (errorString "timed out")
           (partialFailure None (Some connectionRefused)) eq_refl).
Defined.

Lemma X10_witness :
  UpdateRelease installedManager (start storeSucceeding)
    = (Returned (Some (revision 1 "deployed" "M1"),
                 Some (revision 2 "deployed" "M2"), None),
       mkSt storeSucceeding [CallUpgrade "default" false "demo"]).
Proof.
  exact (UpdateRelease_without_partial_release
           installedManager (start storeSucceeding)
           (Some (revision 2 "deployed" "M2")) None storeSucceeding
           eq_refl (or_intror eq_refl)).
Defined.

Lemma X11_witness :
  exists err s',
    UpdateRelease fakeManager
        (start (partialFailure (Some connectionRefused) None))
      = (Returned (None, None, Some err), s') /\
    strings_Contains (Error err) "timed out" = true.
Proof.
  exact (UpdateRelease_error_names_the_upgrade_error
           fakeManager (start (partialFailure (Some connectionRefused) None))
           (Some (revision 2 "failed" "M2")) (errorString "timed out")
           (partialFailure (Some connectionRefused) None) eq_refl).
Defined.

Lemma X13_witness :
  notFoundErr (Some hostNotFound) = true /\
  UninstallRelease fakeManager (start storeUnreachable)
    = (Returned (None, Some (fmt_Errorf_w "failed to get release history: "
                                          hostNotFound)),
       mkSt storeUnreachable [CallHistory "demo"]).
Proof.
  split; [reflexivity|].
  exact (proj1 (UninstallRelease_history_error
                  fakeManager (start storeUnreachable)
                  [Some (revision 2 "failed" "M1")] hostNotFound
                  storeUnreachable eq_refl)).
Defined.

Lemma X15_witness :
  generatePatch fakeJSON "M" "M1" = (Some (list_byte_of_string "add/1"), None).
Proof.
  refine (generatePatch_encodes_a_diff_without_removals
            fakeJSON "M" "M1"
            (list_byte_of_string "M") (list_byte_of_string "M1")
            [jsonpatch.mkOp "add" "/1" "1"]
            eq_refl eq_refl eq_refl _ _).
  - discriminate.
  - repeat constructor. discriminate.
Defined.

Lemma X16_witness :
  json_Marshal strictJSON EmptyString = inr unsupportedValue.
Proof.
  destruct (generatePatch_error_comes_from_a_library_function
              strictJSON EmptyString "M1" None unsupportedValue eq_refl)
    as (_ & [H|[H|(a & b & ops & H & _)]]).
  - exact H.
  - discriminate H.
  - discriminate H.
Defined.

Lemma X17_witness :
  visitor fakeJSON fakeReasonNotFound
          (Some (mkResourceInfo "default" "object" "M1" fakeHelper)) None
          (start storeDeployed)
    = (Returned None,
       mkSt storeDeployed [CallGet "default" "object";
                           CallCreate "default" "M1"]).
Proof.
  exact (proj1 (visitor_creates_a_missing_object
                  fakeJSON fakeReasonNotFound
                  (mkResourceInfo "default" "object" "M1" fakeHelper)
                  (start storeDeployed) EmptyString "M1"
                  (errorString "NotFound") None storeDeployed storeDeployed
                  eq_refl eq_refl eq_refl)).
Defined.

Lemma X18_witness :
  visitor fakeJSON fakeReasonNotFound
          (Some (mkResourceInfo "default" "first" "M1" downHelper)) None
          (start storeDeployed)
    = (Returned (Some connectionRefused),
       mkSt storeDeployed [CallGet "default" "first"]).
Proof.
  exact (visitor_returns_a_fetch_error
           fakeJSON fakeReasonNotFound
           (mkResourceInfo "default" "first" "M1" downHelper)
           (start storeDeployed) EmptyString connectionRefused storeDeployed
           eq_refl eq_refl).
Defined.

Lemma X19_witness :
  visitor fakeJSON fakeReasonNotFound
          (Some (mkResourceInfo "default" "object" "M1" fakeHelper)) None
          (start clusterDrifted)
    = (Returned None,
       mkSt clusterDrifted
            [CallGet "default" "object";
             CallPatch "default" "object" (list_byte_of_string "add/1")]).
Proof.
  exact (visitor_patches_a_drifted_object
           fakeJSON fakeReasonNotFound
           (mkResourceInfo "default" "object" "M1" fakeHelper)
           (start clusterDrifted) "M" EmptyString
           (list_byte_of_string "add/1") None clusterDrifted clusterDrifted
           eq_refl eq_refl eq_refl).
Defined.

Lemma X20_witness :
  visitor strictJSON fakeReasonNotFound
          (Some (mkResourceInfo "default" "object" "M1" fakeHelper)) None
          (start clusterUnencodable)
    = (Returned (Some (fmt_Errorf_w "failed to marshal JSON patch: "
                                    unsupportedValue)),
       mkSt clusterUnencodable [CallGet "default" "object"]).
Proof.
  exact (visitor_returns_a_patch_computation_error
           strictJSON fakeReasonNotFound
           (mkResourceInfo "default" "object" "M1" fakeHelper)
           (start clusterUnencodable) EmptyString None unsupportedValue
           clusterUnencodable eq_refl eq_refl).
Defined.

Lemma X21_witness :
  reconcileRelease fakeJSON fakeReasonNotFound halfDownKube "M1"
                   (start clusterConverged)
    = (Returned (Some connectionRefused),
       mkSt clusterConverged [CallBuild "M1" false; CallGet "default" "first"]).
Proof.
  exact (reconcileRelease_stops_at_the_first_error
           fakeJSON fakeReasonNotFound halfDownKube "M1"
           (start clusterConverged)
           (mkSt clusterConverged [CallBuild "M1" false])
           (mkSt clusterConverged [CallBuild "M1" false; CallGet "default" "first"])
           clusterConverged []
           [Some (mkResourceInfo "default" "object" "M1" fakeHelper)]
           (Some (mkResourceInfo "default" "first" "M1" downHelper))
           connectionRefused eq_refl eq_refl eq_refl).
Defined.

Lemma X22_witness :
  ReconcileRelease fakeJSON fakeReasonNotFound
      (managerWith fakeConfiguration fakeStorage downKube
                   (Some (revision 1 "deployed" "M1")))
      (start fakeWorld)
    = (Returned (Some (revision 1 "deployed" "M1"), Some connectionRefused),
       mkSt fakeWorld [CallBuild "M1" false]).
Proof.
  exact (ReconcileRelease_Build_error
           fakeJSON fakeReasonNotFound
           (managerWith fakeConfiguration fakeStorage downKube
                        (Some (revision 1 "deployed" "M1")))
           (start fakeWorld) (revision 1 "deployed" "M1") []
           connectionRefused fakeWorld eq_refl eq_refl).
Defined.

Lemma X23_witness :
  ReconcileRelease fakeJSON fakeReasonNotFound fakeManager (start clusterConverged)
    = (Panicked, start clusterConverged).
Proof.
  exact (proj1 (ReconcileRelease_needs_a_deployed_release
                  fakeJSON fakeReasonNotFound fakeManager)
               eq_refl (start clusterConverged)).
Defined.
